(** * Construction estimates: buildings, sections, expenditures

    A shallow embedding of [main.py]: the three Django models, the
    [Section.save] override, the two reporting queries and the discount
    update, over an explicit relational store.  The framework calls the
    program makes (instance save and delete, manager [get], queryset
    [filter] / [annotate] / evaluation, Python's [raise] and [Decimal]) are
    embedded next to it, each with the behaviour the framework documents. *)

From Stdlib Require Import ZArith Lia Ascii.
From stdpp Require Import base option list gmap strings fin_maps.

Local Open Scope Z_scope.

(** ** Exceptions and results *)

(** The exception classes the program can surface.  [ValidationError]
    carries its message; the other classes are told apart by name only. *)
Inductive Exn :=
| ValidationError (message : string)
| TypeError
| AttributeError
| ValueError
| FieldError
| DoesNotExist
| IntegrityError
| ProtectedError
| ProgrammingError.

Inductive Result (A : Type) :=
| Ok (a : A)
| Raise (e : Exn).
Arguments Ok {A} a.
Arguments Raise {A} e.

Definition is_ok {A} (r : Result A) : bool :=
  match r with Ok _ => true | Raise _ => false end.

(** [ProtectedError] is declared in [django.db.models.deletion] as a subclass
    of [IntegrityError]; [except IntegrityError] catches both. *)
Definition is_integrity_error (e : Exn) : bool :=
  match e with IntegrityError | ProtectedError => true | _ => false end.

Definition is_validation_error (e : Exn) : bool :=
  match e with ValidationError _ => true | _ => false end.

(** Pure computations that may raise. *)
Definition rbind {A B} (r : Result A) (k : A → Result B) : Result B :=
  match r with Ok a => k a | Raise e => Raise e end.

(** *** Raising a class

    [raise C] with [C] a class instantiates it with no argument;
    [raise C(args)] raises the instance built from [args].  The constructor
    of [django.core.exceptions.ValidationError] is
    [__init__(self, message, code=None, params=None)]: [message] has no
    default, so a call without arguments raises [TypeError]. *)
Definition ValidationError_init (args : list string) : Result Exn :=
  match args with
  | [] => Raise TypeError
  | message :: _ => Ok (ValidationError message)
  end.

Definition raise_new {A} (init : list string → Result Exn) (args : list string)
  : Result A :=
  match init args with
  | Ok e => Raise e
  | Raise e => Raise e
  end.

(** ** Decimal numbers

    A finite [decimal.Decimal]: the number [coef * 10 ^ dexp].  The special
    values (NaN, infinities) are not part of the model. *)
Record Decimal := mkDecimal { coef : Z; dexp : Z }.

#[global] Instance Decimal_eq_dec : EqDecision Decimal.
Proof. solve_decision. Defined.

Definition dec_of_Z (n : Z) : Decimal := mkDecimal n 0.

(** Both operands scaled to the smaller exponent. *)
Definition dec_align (a b : Decimal) : Z * Z * Z :=
  let e := Z.min (dexp a) (dexp b) in
  (coef a * 10 ^ (dexp a - e), coef b * 10 ^ (dexp b - e), e).

Definition dec_compare (a b : Decimal) : comparison :=
  let '(x, y, _) := dec_align a b in x ?= y.

Definition dec_ltb (a b : Decimal) : bool :=
  match dec_compare a b with Lt => true | _ => false end.
Definition dec_gtb (a b : Decimal) : bool :=
  match dec_compare a b with Gt => true | _ => false end.
Definition dec_eqb (a b : Decimal) : bool :=
  match dec_compare a b with Eq => true | _ => false end.

(** Exact sum and product, as a database computes them on [numeric]. *)
Definition dec_add (a b : Decimal) : Decimal :=
  let '(x, y, e) := dec_align a b in mkDecimal (x + y) e.
Definition dec_mul (a b : Decimal) : Decimal :=
  mkDecimal (coef a * coef b) (dexp a + dexp b).

(** *** Python's arithmetic context

    The default context: 28 significant digits, [ROUND_HALF_EVEN].  The
    exponent limits (±999999) are not modelled. *)
Definition prec : Z := 28.

Fixpoint ndigits_aux (fuel : nat) (n : Z) : Z :=
  match fuel with
  | O => 1
  | S fuel' => if n <? 10 then 1 else 1 + ndigits_aux fuel' (n / 10)
  end.

(** Length of the decimal numeral of [|n|] ([len(str(n))]; 1 for 0). *)
Definition ndigits (n : Z) : Z :=
  ndigits_aux (Z.to_nat (Z.log2 (Z.abs n) + 1)) (Z.abs n).

(** Drop the [k] last digits of the magnitude [n], rounding half to even. *)
Definition round_half_even (n k : Z) : Z :=
  let p := 10 ^ k in
  let q := n / p in
  let r := n mod p in
  match 2 * r ?= p with
  | Lt => q
  | Gt => q + 1
  | Eq => if Z.even q then q else q + 1
  end.

(** [Decimal._fix]: round to the context's precision. *)
Definition dec_fix (d : Decimal) : Decimal :=
  let n := Z.abs (coef d) in
  let k := ndigits n - prec in
  if k <=? 0 then d
  else
    let q := round_half_even n k in
    let '(q, e) := if ndigits q >? prec then (q / 10, dexp d + k + 1)
                   else (q, dexp d + k) in
    mkDecimal (Z.sgn (coef d) * q) e.

Fixpoint strip_to_ideal (fuel : nat) (c e ideal : Z) : Z * Z :=
  match fuel with
  | O => (c, e)
  | S fuel' =>
      if (e <? ideal) && (c mod 10 =? 0)
      then strip_to_ideal fuel' (c / 10) (e + 1) ideal
      else (c, e)
  end.

(** [Decimal.__truediv__] for a non-zero divisor. *)
Definition dec_div (a b : Decimal) : Decimal :=
  let x := Z.abs (coef a) in
  let y := Z.abs (coef b) in
  let shift := ndigits y - ndigits x + prec + 1 in
  let e := dexp a - dexp b - shift in
  let '(c, r) := if 0 <=? shift then Z.div_eucl (x * 10 ^ shift) y
                 else Z.div_eucl x (y * 10 ^ (- shift)) in
  let '(c, e) :=
    if r =? 0 then strip_to_ideal (Z.to_nat (dexp a - dexp b - e)) c e (dexp a - dexp b)
    else (if c mod 5 =? 0 then c + 1 else c, e) in
  dec_fix (mkDecimal (Z.sgn (coef a) * Z.sgn (coef b) * c) e).

Definition py_dec_mul (a b : Decimal) : Decimal := dec_fix (dec_mul a b).
Definition py_dec_sub (a b : Decimal) : Decimal :=
  dec_fix (dec_add a (mkDecimal (- coef b) (dexp b))).

(** ** Values

    What a column, an annotation or an instance attribute can hold. *)
Inductive Value :=
| VNone
| VBool (b : bool)
| VInt (n : Z)
| VDec (d : Decimal)
| VStr (s : string).

#[global] Instance Value_eq_dec : EqDecision Value.
Proof. solve_decision. Defined.

Definition value_of_optZ (o : option Z) : Value :=
  match o with Some n => VInt n | None => VNone end.

(** A value read as a number, when it is one. *)
Definition as_decimal (v : Value) : option Decimal :=
  match v with
  | VInt n => Some (dec_of_Z n)
  | VDec d => Some d
  | _ => None
  end.

(** Python's binary operators on the operands the program gives them.  A
    [Decimal] combines with a [Decimal] or an [int]; [None] and [str]
    operands raise [TypeError].  ([int / int] is a [float], and a [float]
    combined with a [Decimal] raises [TypeError] too, so two [int]s are
    given that outcome directly.) *)
Definition py_binop (op : Decimal → Decimal → Decimal) (a b : Value)
  : Result Value :=
  match a, b with
  | VInt _, VInt _ => Raise TypeError
  | _, _ =>
      match as_decimal a, as_decimal b with
      | Some x, Some y => Ok (VDec (op x y))
      | _, _ => Raise TypeError
      end
  end.

Definition py_truediv := py_binop dec_div.
Definition py_mul := py_binop py_dec_mul.
Definition py_sub := py_binop py_dec_sub.

(** ** The models *)

Inductive ModelName := Building | Section | Expenditure.

#[global] Instance ModelName_eq_dec : EqDecision ModelName.
Proof. solve_decision. Defined.

(** [_meta.model_name]: the class name in lower case. *)
Definition model_name (m : ModelName) : string :=
  match m with
  | Building => "building"
  | Section => "section"
  | Expenditure => "expenditure"
  end.

(** *** The store: one table per model, keyed by primary key *)

Record BuildingRow := mkBuildingRow { brow_name : string }.

Record SectionRow := mkSectionRow {
  srow_building_id : Z;
  srow_parent_id : option Z
}.

Record ExpenditureRow := mkExpenditureRow {
  erow_section_id : Z;
  erow_name : string;
  erow_type : string;
  erow_count : Decimal;
  erow_price : Decimal
}.

Record DB := mkDB {
  buildings : gmap Z BuildingRow;
  sections : gmap Z SectionRow;
  expenditures : gmap Z ExpenditureRow
}.

Definition empty_db : DB := mkDB ∅ ∅ ∅.

Definition set_sections (db : DB) (t : gmap Z SectionRow) : DB :=
  mkDB (buildings db) t (expenditures db).
Definition set_buildings (db : DB) (t : gmap Z BuildingRow) : DB :=
  mkDB t (sections db) (expenditures db).
Definition set_expenditures (db : DB) (t : gmap Z ExpenditureRow) : DB :=
  mkDB (buildings db) (sections db) t.

(** The primary keys of a table. *)
Definition table_pks (db : DB) (m : ModelName) : list Z :=
  match m with
  | Building => (map_to_list (buildings db)).*1
  | Section => (map_to_list (sections db)).*1
  | Expenditure => (map_to_list (expenditures db)).*1
  end.

Definition row_exists (db : DB) (m : ModelName) (pk : Z) : bool :=
  match m with
  | Building => bool_decide (is_Some (buildings db !! pk))
  | Section => bool_decide (is_Some (sections db !! pk))
  | Expenditure => bool_decide (is_Some (expenditures db !! pk))
  end.

(** The columns of a stored row, by column name. *)
Definition building_col (pk : Z) (r : BuildingRow) (col : string) : option Value :=
  if decide (col = "id") then Some (VInt pk)
  else if decide (col = "name") then Some (VStr (brow_name r))
  else None.

Definition section_col (pk : Z) (r : SectionRow) (col : string) : option Value :=
  if decide (col = "id") then Some (VInt pk)
  else if decide (col = "building_id") then Some (VInt (srow_building_id r))
  else if decide (col = "parent_id") then Some (value_of_optZ (srow_parent_id r))
  else None.

Definition expenditure_col (pk : Z) (r : ExpenditureRow) (col : string)
  : option Value :=
  if decide (col = "id") then Some (VInt pk)
  else if decide (col = "section_id") then Some (VInt (erow_section_id r))
  else if decide (col = "name") then Some (VStr (erow_name r))
  else if decide (col = "type") then Some (VStr (erow_type r))
  else if decide (col = "count") then Some (VDec (erow_count r))
  else if decide (col = "price") then Some (VDec (erow_price r))
  else None.

Definition row_get (db : DB) (m : ModelName) (pk : Z) (col : string)
  : option Value :=
  match m with
  | Building => r ← buildings db !! pk; building_col pk r col
  | Section => r ← sections db !! pk; section_col pk r col
  | Expenditure => r ← expenditures db !! pk; expenditure_col pk r col
  end.

(** *** Operations on the store: state and exceptions

    An operation starts in a store and ends with a result, or a raised
    exception, and the store it leaves behind. *)
Definition M (A : Type) : Type := DB → Result A * DB.

Definition ret {A} (a : A) : M A := λ db, (Ok a, db).
Definition raise {A} (e : Exn) : M A := λ db, (Raise e, db).
Definition bind {A B} (c : M A) (k : A → M B) : M B :=
  λ db, match c db with
        | (Ok a, db') => k a db'
        | (Raise e, db') => (Raise e, db')
        end.
Definition lift {A} (r : Result A) : M A := λ db, (r, db).
Definition get_db : M DB := λ db, (Ok db, db).
Definition put_db (db : DB) : M unit := λ _, (Ok tt, db).

#[global] Instance M_ret : MRet M := @ret.
#[global] Instance M_bind : MBind M := λ A B k c, bind c k.
#[global] Instance Result_ret : MRet Result := @Ok.
#[global] Instance Result_bind : MBind Result := λ A B k r, rbind r k.

Fixpoint for_each {A} (l : list A) (body : A → M unit) : M unit :=
  match l with
  | [] => ret tt
  | x :: l' => body x;; for_each l' body
  end.

(** *** Field declarations *)

(** An [on_delete] argument is a callable the deletion collector runs on
    the rows that reference the one being deleted. *)
Definition OnDelete : Type := list Z → M unit.

(** [models.PROTECT]: [raise ProtectedError(...)]. *)
Definition PROTECT : OnDelete := λ sub_objs, raise ProtectedError.

Inductive FieldType :=
| AutoField
| CharField
| DecimalField (max_digits decimal_places : Z)
| ForeignKey (to : ModelName) (on_delete : OnDelete) (null : bool).

Record Field := mkField { fname : string; ftype : FieldType }.

(** The fields of each model, in declaration order; [id] is the automatic
    primary key, and ['self'] is the declaring model. *)
Definition model_fields (m : ModelName) : list Field :=
  match m with
  | Building =>
      [ mkField "id" AutoField;
        mkField "name" CharField ]
  | Section =>
      [ mkField "id" AutoField;
        mkField "building" (ForeignKey Building PROTECT false);
        mkField "parent" (ForeignKey Section PROTECT true) ]
  | Expenditure =>
      [ mkField "id" AutoField;
        mkField "section" (ForeignKey Section PROTECT false);
        mkField "name" CharField;
        mkField "type" CharField;
        mkField "count" (DecimalField 20 8);
        mkField "price" (DecimalField 20 2) ]
  end.

Definition all_models : list ModelName := [Building; Section; Expenditure].

Definition is_relation (f : Field) : bool :=
  match ftype f with ForeignKey _ _ _ => true | _ => false end.

(** The column (and instance attribute) a field is stored under. *)
Definition attname (f : Field) : string :=
  if is_relation f then fname f +:+ "_id" else fname f.

(** The foreign keys that point at model [m], with the model declaring
    each. *)
Definition related_fields (m : ModelName) : list (ModelName * Field) :=
  src ← all_models;
  f ← model_fields src;
  match ftype f with
  | ForeignKey to _ _ => if decide (to = m) then [(src, f)] else []
  | _ => []
  end.

(** The rows of [src] whose foreign-key column [att] holds [pk]. *)
Definition referencing_pks (db : DB) (src : ModelName) (att : string) (pk : Z)
  : list Z :=
  filter (λ k, row_get db src k att = Some (VInt pk)) (table_pks db src).

(** ** Framework: deleting an instance

    [Model.delete]: the collector visits every foreign key that points at
    the instance's model and hands the referencing rows, when there are
    any, to the key's [on_delete]; then the row itself is removed. *)
Definition collect_related (pk : Z) (rel : ModelName * Field) : M unit :=
  db ← get_db;
  match referencing_pks db rel.1 (attname rel.2) pk, ftype rel.2 with
  | (_ :: _) as sub_objs, ForeignKey _ on_delete _ => on_delete sub_objs
  | _, _ => ret tt
  end.

Definition collect (m : ModelName) (pk : Z) : M unit :=
  for_each (related_fields m) (collect_related pk).

Definition delete_row (m : ModelName) (pk : Z) : M unit :=
  db ← get_db;
  put_db match m with
         | Building => set_buildings db (delete pk (buildings db))
         | Section => set_sections db (delete pk (sections db))
         | Expenditure => set_expenditures db (delete pk (expenditures db))
         end.

Definition Model_delete (m : ModelName) (pk : Z) : M unit :=
  collect m pk;; delete_row m pk.

(** ** Section instances *)

(** A [Section] object in memory: its field attributes, and the entries of
    its [__dict__] that are not fields (annotations, ad-hoc attributes). *)
Record SectionObj := mkSectionObj {
  sec_id : option Z;
  sec_building_id : option Z;
  sec_parent_id : option Z;
  sec_dict : list (string * Value)
}.

Definition Section_from_db (pk : Z) (r : SectionRow) : SectionObj :=
  mkSectionObj (Some pk) (Some (srow_building_id r)) (srow_parent_id r) [].

(** [Section.objects.get(pk=...)]. *)
Definition Section_objects_get (pk : Z) : M SectionObj :=
  db ← get_db;
  match sections db !! pk with
  | Some r => ret (Section_from_db pk r)
  | None => raise DoesNotExist
  end.

(** The related-object descriptor [obj.parent]: [None] for a null key,
    otherwise the referenced row, fetched from the store. *)
Definition Section_parent (self : SectionObj) : M (option SectionObj) :=
  match sec_parent_id self with
  | None => ret None
  | Some p =>
      db ← get_db;
      match sections db !! p with
      | Some r => ret (Some (Section_from_db p r))
      | None => raise DoesNotExist
      end
  end.

Fixpoint dict_get (d : list (string * Value)) (name : string) : option Value :=
  match d with
  | [] => None
  | (k, v) :: d' => if decide (k = name) then Some v else dict_get d' name
  end.

Fixpoint dict_set (d : list (string * Value)) (name : string) (v : Value)
  : list (string * Value) :=
  match d with
  | [] => [(name, v)]
  | (k, w) :: d' =>
      if decide (k = name) then (k, v) :: d' else (k, w) :: dict_set d' name v
  end.

Definition Section_field_value (self : SectionObj) (att : string)
  : option Value :=
  if decide (att = "id") then Some (value_of_optZ (sec_id self))
  else if decide (att = "building_id") then Some (value_of_optZ (sec_building_id self))
  else if decide (att = "parent_id") then Some (value_of_optZ (sec_parent_id self))
  else None.

(** Reading a data attribute [obj.name]: a field attribute ([pk] is the
    primary key), else an entry of the instance's dict, else
    [AttributeError]. *)
Definition Section_getattr (self : SectionObj) (name : string) : Result Value :=
  match Section_field_value self (if decide (name = "pk") then "id" else name) with
  | Some v => Ok v
  | None =>
      match dict_get (sec_dict self) name with
      | Some v => Ok v
      | None => Raise AttributeError
      end
  end.

Definition optZ_of_value (v : Value) : option Z :=
  match v with VInt n => Some n | _ => None end.

(** Assigning [obj.name = v]. *)
Definition Section_setattr (self : SectionObj) (name : string) (v : Value)
  : SectionObj :=
  if decide (name = "id" ∨ name = "pk")
  then mkSectionObj (optZ_of_value v) (sec_building_id self) (sec_parent_id self) (sec_dict self)
  else if decide (name = "building_id")
  then mkSectionObj (sec_id self) (optZ_of_value v) (sec_parent_id self) (sec_dict self)
  else if decide (name = "parent_id")
  then mkSectionObj (sec_id self) (sec_building_id self) (optZ_of_value v) (sec_dict self)
  else mkSectionObj (sec_id self) (sec_building_id self) (sec_parent_id self)
                    (dict_set (sec_dict self) name v).

(** ** Framework: saving a Section

    [models.Model.save] on a [Section]: the row is written under the
    instance's key, or under a key the table does not use when the instance
    has none yet, and the instance keeps that key.  Only fields are written.
    The store refuses a row whose building is missing or whose foreign keys
    reference no row once the row is in place (a row may name itself as
    parent); a refused row is not kept. *)

(** A key the table does not use.  Which unused key a database hands out
    depends on its sequence; the properties below name the key of a new row
    only as some key that was free. *)
Definition fresh_pk {A} (t : gmap Z A) : Z :=
  1 + foldr Z.max 0 (map_to_list t).*1.

Definition fk_ok (db : DB) (to : ModelName) (ref : option Z) : bool :=
  match ref with
  | None => true
  | Some k => row_exists db to k
  end.

Definition Model_save (self : SectionObj) : M SectionObj :=
  db ← get_db;
  match sec_building_id self with
  | None => raise IntegrityError
  | Some b =>
      let pk := default (fresh_pk (sections db)) (sec_id self) in
      let written :=
        set_sections db
          (<[pk := mkSectionRow b (sec_parent_id self)]> (sections db)) in
      if negb (row_exists written Building b
               && fk_ok written Section (sec_parent_id self))
      then raise IntegrityError
      else
        put_db written;;
        ret (mkSectionObj (Some pk) (sec_building_id self) (sec_parent_id self)
                          (sec_dict self))
  end.

(** ** [Section.save] *)

(** Truth value of [self.id]: [None] and [0] are false. *)
Definition py_bool_id (o : option Z) : bool :=
  match o with
  | None => false
  | Some n => negb (n =? 0)
  end.

Definition nesting_message : string := "Максимальный уровень вложенности 2".

(** The condition of line 24, evaluated left to right with [and]'s short
    circuit: [not self.id and self.parent and getattr(self.parent, 'parent',
    None)].  A model instance is true; [getattr]'s default stands in for an
    [AttributeError] only, which the [parent] descriptor does not raise. *)
Definition nesting_exceeded (self : SectionObj) : M bool :=
  if negb (py_bool_id (sec_id self)) then
    parent ← Section_parent self;
    match parent with
    | Some p =>
        grandparent ← Section_parent p;
        ret (bool_decide (is_Some grandparent))
    | None => ret false
    end
  else ret false.

Definition Section_save (self : SectionObj) : M SectionObj :=
  exceeded ← nesting_exceeded self;
  if exceeded : bool
  then lift (raise_new ValidationError_init [nesting_message])
  else Model_save self.

(** ** [update_with_discount] *)

Definition update_with_discount (section_id : Z) (discount : Decimal) : M unit :=
  if dec_ltb discount (dec_of_Z 0) || dec_gtb discount (dec_of_Z 100)
  then lift (raise_new ValidationError_init [])
  else
    section ← Section_objects_get section_id;
    price ← lift (Section_getattr section "price");
    hundredth ← lift (py_truediv price (VInt 100));
    discount_amount ← lift (py_mul hundredth (VDec discount));
    price ← lift (Section_getattr section "price");
    new_price ← lift (py_sub price discount_amount);
    Section_save (Section_setattr section "price" new_price);;
    ret tt.

(** ** Framework: field lookups

    A lookup such as ["building__section__count"] is split at the separator
    ["__"] and its names are resolved one after the other, starting from the
    queried model ([Query.names_to_path]). *)

(** [str.split('__')]. *)
Fixpoint split_lookup_from (cur : string) (s : string) : list string :=
  match s with
  | EmptyString => [cur]
  | String "_"%char (String "_"%char rest) => cur :: split_lookup_from "" rest
  | String c rest => split_lookup_from (cur +:+ String c "") rest
  end.

Definition split_lookup (s : string) : list string := split_lookup_from "" s.

(** One join of a lookup path: along a foreign key of the current row to
    the row it references, or back from the current row to the rows of [src]
    whose foreign key references it. *)
Inductive Hop :=
| Forward (att : string) (to : ModelName)
| Reverse (src : ModelName) (att : string).

#[global] Instance Hop_eq_dec : EqDecision Hop.
Proof. solve_decision. Defined.

(** A resolved lookup: the joins to make, and the column to read from the
    row they end at. *)
Record Path := mkPath { hops : list Hop; col : string }.

(** What a name denotes on a model: one of its own fields, or the reverse
    side of a foreign key that points at it. *)
Inductive Resolved :=
| OwnField (f : Field)
| ReverseOf (src : ModelName) (f : Field).

(** The name under which the reverse side of a foreign key is queried.  No
    key of the program sets [related_name] or [related_query_name], so it is
    the declaring model's name. *)
Definition related_query_name (src : ModelName) (f : Field) : string :=
  model_name src.

(** The name of the reverse manager on instances: [<model>_set]. *)
Definition related_accessor_name (src : ModelName) (f : Field) : string :=
  model_name src +:+ "_set".

(** [_meta.get_field]: a field by its name or attribute name, else a reverse
    relation by its query name. *)
Definition get_field (m : ModelName) (name : string) : option Resolved :=
  match filter (λ f, name = fname f ∨ name = attname f) (model_fields m) with
  | f :: _ => Some (OwnField f)
  | [] =>
      match filter (λ r, name = related_query_name r.1 r.2) (related_fields m) with
      | r :: _ => Some (ReverseOf r.1 r.2)
      | [] => None
      end
  end.

Definition pk_alias (name : string) : string :=
  if decide (name = "pk") then "id" else name.

(** The column a resolved name designates when it is the last one, and the
    model and joins to go on from when more names follow. *)
Definition step (m : ModelName) (hs : list Hop) (r : Resolved)
  : Path * option (ModelName * list Hop) :=
  match r with
  | OwnField f =>
      match ftype f with
      | ForeignKey to _ _ =>
          (mkPath hs (attname f), Some (to, hs ++ [Forward (attname f) to]))
      | _ => (mkPath hs (attname f), None)
      end
  | ReverseOf src f =>
      let hs' := hs ++ [Reverse src (attname f)] in
      (mkPath hs' "id", Some (src, hs'))
  end.

(** Resolve names as far as they go; the names left over are returned. *)
Fixpoint walk (last : Path) (next : option (ModelName * list Hop))
    (names : list string) : Path * list string :=
  match names, next with
  | [], _ => (last, [])
  | _ :: _, None => (last, names)
  | n :: rest, Some (m, hs) =>
      match get_field m (pk_alias n) with
      | None => (last, names)
      | Some r => let '(last', next') := step m hs r in walk last' next' rest
      end
  end.

(** [names_to_path]: the first name must resolve, else [FieldError]
    ("Cannot resolve keyword ... into field"). *)
Definition names_to_path (m : ModelName) (names : list string)
  : Result (Path * list string) :=
  match names with
  | [] => Raise FieldError
  | n :: rest =>
      match get_field m (pk_alias n) with
      | None => Raise FieldError
      | Some r => let '(last, next) := step m [] r in Ok (walk last next rest)
      end
  end.

(** A field reference [F(name)] must resolve completely: a name left over
    would have to be a transform of the field reached, and the field types
    of the program have none. *)
Definition resolve_ref (m : ModelName) (name : string) : Result Path :=
  pr ← names_to_path m (split_lookup name);
  match pr.2 with
  | [] => Ok pr.1
  | _ :: _ => Raise FieldError
  end.

(** *** Conditions *)

(** The right-hand side of a condition. *)
Inductive Rhs :=
| Val (v : Value)
| OuterRef (name : string).

(** The lookups the program uses; a condition without one is [exact]. *)
Inductive Lookup := Exact | IsNull.

Definition lookup_of_name (l : string) : Result Lookup :=
  if decide (l = "exact") then Ok Exact
  else if decide (l = "isnull") then Ok IsNull
  else Raise FieldError.

Record Cond := mkCond { c_path : Path; c_lookup : Lookup; c_rhs : Rhs }.

(** [Q(arg=rhs)]. *)
Definition Q (arg : string) (rhs : Rhs) : string * Rhs := (arg, rhs).

(** [build_filter]: the names that resolve are the path, at most one name is
    left for the lookup; [exact] against [None] is [isnull=True]. *)
Definition build_filter (m : ModelName) (q : string * Rhs) : Result Cond :=
  pr ← names_to_path m (split_lookup q.1);
  lookup ← match pr.2 with
           | [] => Ok Exact
           | [l] => lookup_of_name l
           | _ => Raise FieldError
           end;
  match lookup, q.2 with
  | Exact, Val VNone => Ok (mkCond pr.1 IsNull (Val (VBool true)))
  | _, _ => Ok (mkCond pr.1 lookup q.2)
  end.

(** *** Expressions *)

Inductive Expr :=
| F (name : string)
| Add (a b : Expr)
| Mul (a b : Expr)
| Sum (e : Expr) (filter : option (string * Rhs)).

(** Resolved expressions.  [RRef] refers to an aggregate annotation made
    earlier in the same query. *)
Inductive RExpr :=
| RCol (p : Path)
| RRef (alias : string)
| RAdd (a b : RExpr)
| RMul (a b : RExpr)
| RSum (e : RExpr) (filter : option Cond).

Fixpoint contains_aggregate (e : RExpr) : bool :=
  match e with
  | RCol _ => false
  | RRef _ => true
  | RAdd a b | RMul a b => contains_aggregate a || contains_aggregate b
  | RSum _ _ => true
  end.

Fixpoint assoc {A} (l : list (string * A)) (name : string) : option A :=
  match l with
  | [] => None
  | (k, v) :: l' => if decide (k = name) then Some v else assoc l' name
  end.

(** [resolve_expression]: an [F] names an annotation of the query if there
    is one of that name, otherwise a lookup path from the model; an
    aggregate of an aggregate is refused with [FieldError]. *)
Fixpoint resolve_expression (m : ModelName) (anns : list (string * RExpr))
    (e : Expr) : Result RExpr :=
  match e with
  | F name =>
      match assoc anns name with
      | Some a => Ok (if contains_aggregate a then RRef name else a)
      | None => p ← resolve_ref m name; Ok (RCol p)
      end
  | Add a b =>
      a' ← resolve_expression m anns a;
      b' ← resolve_expression m anns b;
      Ok (RAdd a' b')
  | Mul a b =>
      a' ← resolve_expression m anns a;
      b' ← resolve_expression m anns b;
      Ok (RMul a' b')
  | Sum e filter =>
      e' ← resolve_expression m anns e;
      if contains_aggregate e' then Raise FieldError
      else
        match filter with
        | None => Ok (RSum e' None)
        | Some q => c ← build_filter m q; Ok (RSum e' (Some c))
        end
  end.

(** ** Framework: querysets *)

Record Query := mkQuery {
  q_model : ModelName;
  q_where : list Cond;
  q_annotations : list (string * RExpr);
  q_prefetch : list string
}.

(** [Model.objects]. *)
Definition objects (m : ModelName) : Query := mkQuery m [] [] [].

(** [prefetch_related] only records the lookup; it is looked at when the
    queryset is evaluated. *)
Definition prefetch_related (lookup : string) (q : Query) : Query :=
  mkQuery (q_model q) (q_where q) (q_annotations q) (q_prefetch q ++ [lookup]).

Fixpoint result_map {A B} (f : A → Result B) (l : list A) : Result (list B) :=
  match l with
  | [] => Ok []
  | x :: l' => y ← f x; ys ← result_map f l'; Ok (y :: ys)
  end.

(** [filter] with keyword arguments: every condition is resolved when the call is
    made. *)
Definition filter_ (kwargs : list (string * Rhs)) (q : Query) : Result Query :=
  cs ← result_map (build_filter (q_model q)) kwargs;
  Ok (mkQuery (q_model q) (q_where q ++ cs) (q_annotations q) (q_prefetch q)).

(** [annotate] with keyword arguments: the annotations are resolved in the order given,
    each seeing the earlier ones; an alias that is a name on the model is
    refused with [ValueError]. *)
Fixpoint annotate (kwargs : list (string * Expr)) (q : Query) : Result Query :=
  match kwargs with
  | [] => Ok q
  | (alias, e) :: kwargs' =>
      if bool_decide (is_Some (get_field (q_model q) alias))
      then Raise ValueError
      else
        e' ← resolve_expression (q_model q) (q_annotations q) e;
        annotate kwargs'
          (mkQuery (q_model q) (q_where q) (q_annotations q ++ [(alias, e')])
                   (q_prefetch q))
  end.

(** ** Framework: evaluating a queryset

    The query is one [SELECT] over the model's table, left-joined along
    every lookup path it uses (one join per distinct path), restricted by
    its conditions and, when it aggregates, grouped by the row of the model
    and the columns it selects outside aggregates. *)

Definition RowRef : Type := ModelName * Z.

(** A joined row: for each join, the row it contributes, or none. *)
Definition Env : Type := list (list Hop * option RowRef).

Fixpoint env_get (env : Env) (a : list Hop) : option RowRef :=
  match env with
  | [] => None
  | (k, r) :: env' => if decide (k = a) then r else env_get env' a
  end.

Definition joined_row (base : RowRef) (env : Env) (a : list Hop)
  : option RowRef :=
  match a with
  | [] => Some base
  | _ :: _ => env_get env a
  end.

Definition eval_path (db : DB) (base : RowRef) (env : Env) (p : Path) : Value :=
  match joined_row base env (hops p) with
  | Some r => default VNone (row_get db r.1 r.2 (col p))
  | None => VNone
  end.

Fixpoint expr_paths (e : RExpr) : list Path :=
  match e with
  | RCol p => [p]
  | RRef _ => []
  | RAdd a b | RMul a b => expr_paths a ++ expr_paths b
  | RSum e' filter =>
      expr_paths e' ++ match filter with Some c => [c_path c] | None => [] end
  end.

Definition query_paths (q : Query) : list Path :=
  (c_path <$> q_where q) ++ (a ← q_annotations q; expr_paths a.2).

Definition prefixes (hs : list Hop) : list (list Hop) :=
  (λ n, take n hs) <$> seq 1 (length hs).

Definition add_alias (acc : list (list Hop)) (a : list Hop) : list (list Hop) :=
  if decide (a ∈ acc) then acc else acc ++ [a].

(** The joins of a query, each after the join it extends. *)
Definition aliases (q : Query) : list (list Hop) :=
  foldl add_alias [] (p ← query_paths q; prefixes (hops p)).

Definition follow (db : DB) (r : RowRef) (h : Hop) : list RowRef :=
  match h with
  | Forward att to =>
      match row_get db r.1 r.2 att with
      | Some (VInt k) => if row_exists db to k then [(to, k)] else []
      | _ => []
      end
  | Reverse src att => (λ k, (src, k)) <$> referencing_pks db src att r.2
  end.

Definition join (db : DB) (base : RowRef) (envs : list Env) (a : list Hop)
  : list Env :=
  env ← envs;
  match reverse a with
  | [] => [env]
  | h :: before =>
      match joined_row base env (reverse before) with
      | None => [env ++ [(a, None)]]
      | Some r =>
          match follow db r h with
          | [] => [env ++ [(a, None)]]
          | rs => (λ r', env ++ [(a, Some r')]) <$> rs
          end
      end
  end.

Definition joined_rows (db : DB) (q : Query) (base : RowRef) : list Env :=
  foldl (join db base) [[]] (aliases q).

(** SQL arithmetic: null if an operand is null. *)
Definition sql_arith (opZ : Z → Z → Z) (opD : Decimal → Decimal → Decimal)
    (a b : Value) : Result Value :=
  match a, b with
  | VNone, _ => Ok VNone
  | _, VNone => Ok VNone
  | VInt x, VInt y => Ok (VInt (opZ x y))
  | _, _ =>
      match as_decimal a, as_decimal b with
      | Some x, Some y => Ok (VDec (opD x y))
      | _, _ => Raise ProgrammingError
      end
  end.

Definition sql_add := sql_arith Z.add dec_add.
Definition sql_mul := sql_arith Z.mul dec_mul.

(** SQL equality as a condition: a null operand makes it fail. *)
Definition sql_eq (a b : Value) : bool :=
  match a, b with
  | VStr x, VStr y => bool_decide (x = y)
  | VBool x, VBool y => bool_decide (x = y)
  | _, _ =>
      match as_decimal a, as_decimal b with
      | Some x, Some y => dec_eqb x y
      | _, _ => false
      end
  end.

Definition is_null (v : Value) : bool :=
  match v with VNone => true | _ => false end.

(** Compiling a condition: an [OuterRef] outside a subquery, and an
    [isnull] against something that is not a boolean, raise [ValueError]. *)
Definition compile_cond (c : Cond) : Result unit :=
  match c_rhs c, c_lookup c with
  | OuterRef _, _ => Raise ValueError
  | Val (VBool _), IsNull => Ok tt
  | Val _, IsNull => Raise ValueError
  | Val _, Exact => Ok tt
  end.

Definition eval_cond (db : DB) (base : RowRef) (env : Env) (c : Cond)
  : Result bool :=
  compile_cond c;;
  match c_rhs c, c_lookup c with
  | Val rhs, Exact => Ok (sql_eq (eval_path db base env (c_path c)) rhs)
  | Val (VBool b), IsNull =>
      Ok (bool_decide (is_null (eval_path db base env (c_path c)) = b))
  | _, _ => Raise ValueError
  end.

(** An expression inside an aggregate, on one joined row. *)
Fixpoint eval_row (db : DB) (base : RowRef) (env : Env) (e : RExpr)
  : Result Value :=
  match e with
  | RCol p => Ok (eval_path db base env p)
  | RAdd a b =>
      x ← eval_row db base env a; y ← eval_row db base env b; sql_add x y
  | RMul a b =>
      x ← eval_row db base env a; y ← eval_row db base env b; sql_mul x y
  | RRef _ | RSum _ _ => Raise FieldError
  end.

(** [SUM]: nulls are skipped; null when nothing is left. *)
Fixpoint sql_sum (vs : list Value) : Result Value :=
  match vs with
  | [] => Ok VNone
  | v :: vs' =>
      s ← sql_sum vs';
      match v, s with
      | VNone, _ => Ok s
      | _, VNone =>
          match as_decimal v with
          | Some _ => Ok v
          | None => Raise ProgrammingError
          end
      | _, _ => sql_add v s
      end
  end.

(** [Sum(e, filter=c)] over the joined rows of a group: rows that fail the
    condition contribute null. *)
Definition eval_sum (db : DB) (base : RowRef) (envs : list Env) (e : RExpr)
    (filter : option Cond) : Result Value :=
  vs ← result_map (λ env,
          keep ← match filter with
                 | None => Ok true
                 | Some c => eval_cond db base env c
                 end;
          if keep : bool then eval_row db base env e else Ok VNone) envs;
  sql_sum vs.

(** An annotation on a group; [vals] holds the annotations computed
    before it. *)
Fixpoint eval_group (db : DB) (base : RowRef) (envs : list Env)
    (vals : list (string * Value)) (e : RExpr) : Result Value :=
  match e with
  | RCol p =>
      Ok match envs with
         | env :: _ => eval_path db base env p
         | [] => VNone
         end
  | RRef alias => Ok (default VNone (assoc vals alias))
  | RAdd a b =>
      x ← eval_group db base envs vals a;
      y ← eval_group db base envs vals b;
      sql_add x y
  | RMul a b =>
      x ← eval_group db base envs vals a;
      y ← eval_group db base envs vals b;
      sql_mul x y
  | RSum e' filter => eval_sum db base envs e' filter
  end.

Fixpoint eval_annotations (db : DB) (base : RowRef) (envs : list Env)
    (vals : list (string * Value)) (anns : list (string * RExpr))
  : Result (list (string * Value)) :=
  match anns with
  | [] => Ok vals
  | (alias, e) :: anns' =>
      v ← eval_group db base envs vals e;
      eval_annotations db base envs (vals ++ [(alias, v)]) anns'
  end.

(** *** Grouping *)

Fixpoint group_paths (e : RExpr) : list Path :=
  match e with
  | RCol p => [p]
  | RRef _ | RSum _ _ => []
  | RAdd a b | RMul a b => group_paths a ++ group_paths b
  end.

Definition group_key (db : DB) (q : Query) (base : RowRef) (env : Env)
  : list Value :=
  eval_path db base env <$> (a ← q_annotations q; group_paths a.2).

Definition has_aggregate (q : Query) : bool :=
  existsb (λ a, contains_aggregate a.2) (q_annotations q).

Fixpoint insert_group {A K} `{EqDecision K} (key : A → K) (x : A)
    (gs : list (list A)) : list (list A) :=
  match gs with
  | [] => [[x]]
  | g :: gs' =>
      match g with
      | y :: _ =>
          if decide (key y = key x) then (g ++ [x]) :: gs'
          else g :: insert_group key x gs'
      | [] => g :: insert_group key x gs'
      end
  end.

Definition group_by {A K} `{EqDecision K} (key : A → K) (l : list A)
  : list (list A) :=
  foldl (λ gs x, insert_group key x gs) [] l.

(** *** Running the query *)

Fixpoint result_filter {A} (f : A → Result bool) (l : list A)
  : Result (list A) :=
  match l with
  | [] => Ok []
  | x :: l' =>
      b ← f x; ys ← result_filter f l'; Ok (if b : bool then x :: ys else ys)
  end.

Definition where_holds (db : DB) (q : Query) (base : RowRef) (env : Env)
  : Result bool :=
  bs ← result_map (eval_cond db base env) (q_where q);
  Ok (forallb (λ b, b) bs).

(** The result rows that come from one row of the model: its key and the
    values of the annotations. *)
Definition run_row (db : DB) (q : Query) (pk : Z)
  : Result (list (Z * list (string * Value))) :=
  let base := (q_model q, pk) in
  envs ← result_filter (where_holds db q base) (joined_rows db q base);
  let groups := if has_aggregate q then group_by (group_key db q base) envs
                else (λ env, [env]) <$> envs in
  result_map (λ g, vals ← eval_annotations db base g [] (q_annotations q);
                   Ok (pk, vals)) groups.

Definition compile (q : Query) : Result unit :=
  result_map compile_cond
    (q_where q ++ (a ← q_annotations q;
                   match a.2 with RSum _ (Some c) => [c] | _ => [] end));;
  Ok tt.

(** The rows come in the order of the table: the query has no
    [order_by]. *)
Definition execute (db : DB) (q : Query)
  : Result (list (Z * list (string * Value))) :=
  compile q;;
  rows ← result_map (run_row db q) (table_pks db (q_model q));
  Ok (concat rows).

(** *** Prefetching

    A recorded [prefetch_related] lookup is checked against the first result
    instance: its first name must be a relation accessor of the model (a
    foreign key, or a reverse manager).  Another attribute of the instance
    raises [ValueError], a name the instance does not have raises
    [AttributeError].  Nothing is checked when there is no result. *)
Definition accessor_names (m : ModelName) : list string :=
  (fname <$> filter (λ f, is_relation f = true) (model_fields m))
  ++ ((λ r, related_accessor_name r.1 r.2) <$> related_fields m).

Definition prefetch_check (q : Query) (lookup : string) : Result unit :=
  match split_lookup lookup with
  | [] => Raise AttributeError
  | first :: _ =>
      if decide (first ∈ accessor_names (q_model q)) then Ok tt
      else if decide (first = "pk" ∨ first ∈ (attname <$> model_fields (q_model q))
                      ∨ first ∈ (q_annotations q).*1)
      then Raise ValueError
      else Raise AttributeError
  end.

(** Evaluating the queryset, as [list(qs)] or iteration does. *)
Definition evaluate (q : Query) : M (list (Z * list (string * Value))) :=
  db ← get_db;
  rows ← lift (execute db q);
  match rows with
  | [] => ret []
  | _ :: _ => lift (result_map (prefetch_check q) (q_prefetch q));; ret rows
  end.

(** Result instances: the fields of the row, and the annotations as
    attributes. *)
Definition list_sections (q : Query) : M (list SectionObj) :=
  rows ← evaluate q;
  db ← get_db;
  ret (omap (λ r : Z * list (string * Value),
               row ← sections db !! r.1;
               Some (mkSectionObj (Some r.1) (Some (srow_building_id row))
                                  (srow_parent_id row) r.2)) rows).

Record BuildingObj := mkBuildingObj {
  bld_id : option Z;
  bld_name : string;
  bld_dict : list (string * Value)
}.

Definition Building_getattr (b : BuildingObj) (name : string) : Result Value :=
  if decide (name = "id" ∨ name = "pk") then Ok (value_of_optZ (bld_id b))
  else if decide (name = "name") then Ok (VStr (bld_name b))
  else match dict_get (bld_dict b) name with
       | Some v => Ok v
       | None => Raise AttributeError
       end.

Definition list_buildings (q : Query) : M (list BuildingObj) :=
  rows ← evaluate q;
  db ← get_db;
  ret (omap (λ r : Z * list (string * Value),
               row ← buildings db !! r.1;
               Some (mkBuildingObj (Some r.1) (brow_name row) r.2)) rows).

(** ** [get_parent_sections] *)

Definition budget_parent_expr : Expr :=
  Sum (Mul (F "section__price") (F "section__count")) None.

Definition budget_child_expr : Expr :=
  Sum (Mul (F "section__price") (F "section__count"))
      (Some (Q "parent" (OuterRef "pk"))).

Definition budget_all_expr : Expr :=
  Add (F "budget_parent") (F "budget_child").

Definition get_parent_sections (building_id : Z) : M (list SectionObj) :=
  qs ← lift (
    q ← filter_ [ ("building_id", Val (VInt building_id));
                  ("parent__isnull", Val (VBool true)) ]
                (prefetch_related "section" (objects Section));
    annotate [ ("budget_parent", budget_parent_expr);
               ("budget_child", budget_child_expr);
               ("budget_all", budget_all_expr) ] q);
  list_sections qs.

(** ** [get_buildings] *)

Definition Types_WORK : string := "work".
Definition Types_MATERIAL : string := "material".

Definition amount_expr (type : string) : Expr :=
  Sum (Mul (F "building__section__count") (F "building__section__price"))
      (Some (Q "building__section__type" (Val (VStr type)))).

Definition get_buildings : M (list (list (string * Value))) :=
  qs ← lift (annotate [ ("works_amount", amount_expr Types_WORK);
                        ("materials_amount", amount_expr Types_MATERIAL) ]
                      (objects Building));
  bs ← list_buildings qs;
  lift (result_map (λ b,
          i ← Building_getattr b "id";
          w ← Building_getattr b "works_amount";
          m ← Building_getattr b "materials_amount";
          Ok [("id", i); ("works_amount", w); ("materials_amount", m)]) bs).

(** ** A sample store

    One building with a root section carrying two expenditures (2 × 10.00
    and 1 × 5.00) and a child section carrying one (3 × 4.00, a material);
    a second building with nothing under it. *)
Definition money (cents : Z) : Decimal := mkDecimal cents (-2).
Definition quantity (units : Z) : Decimal := mkDecimal (units * 10 ^ 8) (-8).

Definition sample_db : DB :=
  mkDB
    (<[2 := mkBuildingRow "depot"]> (<[1 := mkBuildingRow "house"]> ∅))
    (<[2 := mkSectionRow 1 (Some 1)]> (<[1 := mkSectionRow 1 None]> ∅))
    (<[3 := mkExpenditureRow 2 "bricks" Types_MATERIAL (quantity 3) (money 400)]>
     (<[2 := mkExpenditureRow 1 "survey" Types_WORK (quantity 1) (money 500)]>
      (<[1 := mkExpenditureRow 1 "digging" Types_WORK (quantity 2) (money 1000)]>
       ∅))).

(** A store with one building and one root section that carries two
    expenditures (2 × 10.00 and 1 × 5.00); the section has no child. *)
Definition childless_db : DB :=
  mkDB
    (<[1 := mkBuildingRow "house"]> ∅)
    (<[1 := mkSectionRow 1 None]> ∅)
    (<[2 := mkExpenditureRow 1 "survey" Types_WORK (quantity 1) (money 500)]>
     (<[1 := mkExpenditureRow 1 "digging" Types_WORK (quantity 2) (money 1000)]>
      ∅)).

(** A discount is in range when the guard of [update_with_discount] lets it
    through: [0 <= d <= 100]. *)
Definition dec_leb (a b : Decimal) : bool := negb (dec_gtb a b).

Definition in_range (d : Decimal) : Prop :=
  dec_leb (dec_of_Z 0) d = true ∧ dec_leb d (dec_of_Z 100) = true.

Definition out_of_range (d : Decimal) : Prop :=
  dec_ltb d (dec_of_Z 0) = true ∨ dec_gtb d (dec_of_Z 100) = true.

(** A row of model [m] with key [pk] is referenced by a dependent row: a
    section of the building; a child section or an expenditure of the
    section.  Nothing references an expenditure. *)
Definition has_dependent (db : DB) (m : ModelName) (pk : Z) : Prop :=
  match m with
  | Building =>
      ∃ s row, sections db !! s = Some row ∧ srow_building_id row = pk
  | Section =>
      (∃ s row, sections db !! s = Some row ∧ srow_parent_id row = Some pk)
      ∨ (∃ e row, expenditures db !! e = Some row ∧ erow_section_id row = pk)
  | Expenditure => False
  end.

(** The arithmetic of lines 100 and 101 on a price value. *)
Definition discounted (price : Value) (discount : Decimal) : Result Value :=
  hundredth ← py_truediv price (VInt 100);
  discount_amount ← py_mul hundredth (VDec discount);
  py_sub price discount_amount.

(** ** Queries on lookups that resolve

    The annotations of the two reports written with the names the models do
    have, to run the query model on; [budget_child] keeps a condition on the
    root's own [parent]. *)

Definition parent_sections_query (building_id : Z) : Result Query :=
  q ← filter_ [ ("building_id", Val (VInt building_id));
                ("parent__isnull", Val (VBool true)) ]
              (objects Section);
  annotate [ ("budget_parent",
              Sum (Mul (F "expenditure__price") (F "expenditure__count")) None);
             ("budget_child",
              Sum (Mul (F "expenditure__price") (F "expenditure__count"))
                  (Some (Q "parent" (Val (VInt 1)))));
             ("budget_all", budget_all_expr) ] q.

Definition buildings_query : Result Query :=
  annotate
    [ ("works_amount",
       Sum (Mul (F "section__expenditure__count") (F "section__expenditure__price"))
           (Some (Q "section__expenditure__type" (Val (VStr Types_WORK)))));
      ("materials_amount",
       Sum (Mul (F "section__expenditure__count") (F "section__expenditure__price"))
           (Some (Q "section__expenditure__type" (Val (VStr Types_MATERIAL))))) ]
    (objects Building).

(** ** Shapes of the store *)

(** The key [Model.save] writes an instance under. *)
Definition saved_key (db : DB) (self : SectionObj) : Z :=
  default (fresh_pk (sections db)) (sec_id self).

(** The store without the row of model [m] under [pk]. *)
Definition delete_from (db : DB) (m : ModelName) (pk : Z) : DB :=
  match m with
  | Building => set_buildings db (delete pk (buildings db))
  | Section => set_sections db (delete pk (sections db))
  | Expenditure => set_expenditures db (delete pk (expenditures db))
  end.

(** The parent of [self] is stored and has a stored parent of its own. *)
Definition nested_parent (db : DB) (self : SectionObj) : Prop :=
  ∃ p prow g,
    sec_parent_id self = Some p
    ∧ sections db !! p = Some prow
    ∧ srow_parent_id prow = Some g
    ∧ is_Some (sections db !! g).

(** The parent key of [self], or the parent key of its parent, references
    no row. *)
Definition dangling_parent (db : DB) (self : SectionObj) : Prop :=
  ∃ p, sec_parent_id self = Some p
       ∧ (sections db !! p = None
          ∨ ∃ prow g, sections db !! p = Some prow
                      ∧ srow_parent_id prow = Some g
                      ∧ sections db !! g = None).

(** Every stored section with a stored parent has a root as parent: the
    hierarchy has at most two levels. *)
Definition two_levels (db : DB) : Prop :=
  ∀ s row p prow,
    sections db !! s = Some row →
    srow_parent_id row = Some p →
    sections db !! p = Some prow →
    srow_parent_id prow = None.

(** Every foreign key of a stored row references a stored row. *)
Definition refs_closed (db : DB) : Prop :=
  (∀ s row, sections db !! s = Some row →
            is_Some (buildings db !! srow_building_id row)
            ∧ ∀ p, srow_parent_id row = Some p → is_Some (sections db !! p))
  ∧ (∀ e row, expenditures db !! e = Some row →
              is_Some (sections db !! erow_section_id row)).

(** The queryset of lines 50 to 52, before it is annotated. *)
Definition root_sections_query (building_id : Z) : Result Query :=
  filter_ [ ("building_id", Val (VInt building_id));
            ("parent__isnull", Val (VBool true)) ]
          (prefetch_related "section" (objects Section)).

(** Whether a stored section is a root section of the building. *)
Definition is_root_of (building_id : Z) (row : SectionRow) : bool :=
  bool_decide (srow_building_id row = building_id)
  && bool_decide (srow_parent_id row = None).

Definition stored_root (db : DB) (building_id pk : Z) : bool :=
  match sections db !! pk with
  | Some row => is_root_of building_id row
  | None => false
  end.

(** * Properties *)

(** ** Decimal comparison *)

Lemma dec_compare_antisym (a b : Decimal) :
  dec_compare b a = CompOpp (dec_compare a b).
Proof.
  unfold dec_compare, dec_align. rewrite (Z.min_comm (dexp b) (dexp a)).
  apply Z.compare_antisym.
Qed.

Lemma dec_ltb_gtb (a b : Decimal) : dec_ltb a b = dec_gtb b a.
Proof.
  unfold dec_ltb, dec_gtb. rewrite (dec_compare_antisym a b).
  by destruct (dec_compare a b).
Qed.

Lemma dec_compare_of_Z (a b : Z) :
  dec_compare (dec_of_Z a) (dec_of_Z b) = (a ?= b).
Proof. unfold dec_compare, dec_align. simpl. by rewrite !Z.mul_1_r. Qed.

(** On whole percentages the range is the interval from 0 to 100. *)
Lemma in_range_of_Z (n : Z) : in_range (dec_of_Z n) ↔ 0 ≤ n ≤ 100.
Proof.
  unfold in_range, dec_leb, dec_gtb. rewrite !dec_compare_of_Z.
  destruct (Z.compare_spec 0 n), (Z.compare_spec n 100); simpl;
    split; intros []; try done; lia.
Qed.

(** The two readings of the range agree: the guard of line 96 is false
    exactly on the discounts in range. *)
Lemma guard_in_range (d : Decimal) :
  in_range d →
  dec_ltb d (dec_of_Z 0) || dec_gtb d (dec_of_Z 100) = false.
Proof.
  intros [H0 H100]. unfold dec_leb in *.
  rewrite dec_ltb_gtb. apply negb_true_iff in H0, H100. by rewrite H0, H100.
Qed.

Lemma guard_out_of_range (d : Decimal) :
  out_of_range d →
  dec_ltb d (dec_of_Z 0) || dec_gtb d (dec_of_Z 100) = true.
Proof. intros [H | H]; rewrite H; [done | apply orb_true_r]. Qed.

Lemma in_or_out_of_range (d : Decimal) : in_range d ∨ out_of_range d.
Proof.
  unfold in_range, out_of_range, dec_leb. rewrite <- (dec_ltb_gtb d).
  destruct (dec_ltb d (dec_of_Z 0)), (dec_gtb d (dec_of_Z 100)); simpl; auto.
Qed.

(** ** The discount update *)

(** Out of range, the call stops at the guard, whatever the section
    identifier and the store: the bare [raise ValidationError] cannot build
    its exception. *)
Lemma update_with_discount_out_of_range section_id d db :
  out_of_range d →
  update_with_discount section_id d db = (Raise TypeError, db).
Proof.
  intros H. unfold update_with_discount. by rewrite (guard_out_of_range d H).
Qed.

(** In range, on a stored section, the call stops at [section.price]. *)
Lemma update_with_discount_stored section_id d db row :
  in_range d →
  sections db !! section_id = Some row →
  update_with_discount section_id d db = (Raise AttributeError, db).
Proof.
  intros Hd Hrow. unfold update_with_discount. rewrite (guard_in_range d Hd).
  unfold Section_objects_get, mbind, M_bind, bind, get_db. by rewrite Hrow.
Qed.

(** C1 (the code departs from it).  A stored section and a discount of 10:
    the call raises [AttributeError] at [section.price], since [Section]
    declares no [price] field, and leaves the store as it was; no price is
    read, reduced or written. *)
Theorem update_with_discount_section_has_no_price :
  update_with_discount 1 (dec_of_Z 10) sample_db
  = (Raise AttributeError, sample_db).
Proof.
  apply update_with_discount_stored with (row := mkSectionRow 1 None).
  - by vm_compute.
  - reflexivity.
Qed.

(** What lines 100 and 101 compute from a price they are given: 200.00 at
    10 percent is 180.00, at 0 percent 200.00, at 100 percent 0.00. *)
Example discounted_200 :
  discounted (VDec (money 20000)) (dec_of_Z 10) = Ok (VDec (money 18000))
  ∧ discounted (VDec (money 20000)) (dec_of_Z 0) = Ok (VDec (money 20000))
  ∧ discounted (VDec (money 20000)) (dec_of_Z 100) = Ok (VDec (money 0)).
Proof. by vm_compute. Qed.

(** C7 (the code departs from it).  Discounts of 150 and of -1: the call
    stops at the guard and the store is untouched, but what it raises is
    [TypeError], not a validation error: line 97 raises the class
    [ValidationError] itself, whose constructor needs a message. *)
Theorem update_with_discount_150_and_minus_1 :
  update_with_discount 1 (dec_of_Z 150) sample_db = (Raise TypeError, sample_db)
  ∧ update_with_discount 1 (dec_of_Z (-1)) sample_db
    = (Raise TypeError, sample_db)
  ∧ is_validation_error TypeError = false.
Proof.
  split_and!; [| | done];
    apply update_with_discount_out_of_range; [right | left]; by vm_compute.
Qed.

(** C8.  With a discount in range and no section stored under the
    identifier, the call raises [DoesNotExist] and the store is left as it
    was. *)
Theorem update_with_discount_missing_section section_id d db :
  in_range d →
  sections db !! section_id = None →
  update_with_discount section_id d db = (Raise DoesNotExist, db).
Proof.
  intros Hd Hrow. unfold update_with_discount. rewrite (guard_in_range d Hd).
  unfold Section_objects_get, mbind, M_bind, bind, get_db. by rewrite Hrow.
Qed.

Lemma update_with_discount_missing_section_witness :
  in_range (dec_of_Z 10)
  ∧ sections sample_db !! 99 = None
  ∧ update_with_discount 99 (dec_of_Z 10) sample_db
    = (Raise DoesNotExist, sample_db).
Proof.
  assert (Hd : in_range (dec_of_Z 10)) by (by vm_compute).
  assert (Hrow : sections sample_db !! 99 = None) by reflexivity.
  exact (conj Hd (conj Hrow
           (update_with_discount_missing_section 99 (dec_of_Z 10) sample_db
              Hd Hrow))).
Defined.

(** C10 (the code departs from it).  Out of range, the guard decides before
    any lookup: the outcome is the same for a stored section (1) and for an
    identifier that is not stored (99), where a discount in range meets
    [DoesNotExist].  What the guard raises is [TypeError], though, not a
    validation error (the defect of line 97). *)
Theorem update_with_discount_guard_before_lookup :
  update_with_discount 1 (dec_of_Z 150) sample_db
  = update_with_discount 99 (dec_of_Z 150) sample_db
  ∧ update_with_discount 99 (dec_of_Z 150) sample_db
    = (Raise TypeError, sample_db)
  ∧ update_with_discount 99 (dec_of_Z 100) sample_db
    = (Raise DoesNotExist, sample_db).
Proof.
  assert (Hout : out_of_range (dec_of_Z 150)) by (right; by vm_compute).
  split_and!.
  - by rewrite !(update_with_discount_out_of_range _ _ _ Hout).
  - by apply update_with_discount_out_of_range.
  - unfold update_with_discount.
    rewrite guard_in_range by (by vm_compute). reflexivity.
Qed.

(** ** Saving a section *)

Lemma foldr_max_ge (l : list Z) (k : Z) : k ∈ l → k ≤ foldr Z.max 0 l.
Proof.
  induction l as [| x l IH]; intros Hk.
  - by apply elem_of_nil in Hk.
  - apply elem_of_cons in Hk as [-> | Hk]; simpl; [lia |].
    specialize (IH Hk). lia.
Qed.

(** The key given to a new row is not in use. *)
Lemma fresh_pk_fresh {A} (t : gmap Z A) : t !! fresh_pk t = None.
Proof.
  destruct (t !! fresh_pk t) as [v |] eqn:Hv; [| done].
  assert (fresh_pk t ∈ (map_to_list t).*1) as Hin.
  { apply list_elem_of_fmap. exists (fresh_pk t, v).
    split; [done | by apply elem_of_map_to_list]. }
  apply foldr_max_ge in Hin. unfold fresh_pk in Hin. lia.
Qed.

Lemma row_exists_building db b :
  is_Some (buildings db !! b) → row_exists db Building b = true.
Proof. intros H. by apply bool_decide_eq_true. Qed.

Lemma row_exists_section db s :
  is_Some (sections db !! s) → row_exists db Section s = true.
Proof. intros H. by apply bool_decide_eq_true. Qed.

(** A reference that holds in the store holds once a section is written. *)
Lemma fk_ok_written db k row ref :
  fk_ok db Section ref = true →
  fk_ok (set_sections db (<[k := row]> (sections db))) Section ref = true.
Proof.
  destruct ref as [p |]; [| done]. simpl. intros H.
  apply bool_decide_eq_true in H. apply bool_decide_eq_true.
  rewrite lookup_insert_is_Some. destruct (decide (k = p)); auto.
Qed.

(** The framework's save on a new instance whose references exist: the row
    goes in under the fresh key. *)
Lemma Model_save_new db self b :
  sec_id self = None →
  sec_building_id self = Some b →
  is_Some (buildings db !! b) →
  fk_ok db Section (sec_parent_id self) = true →
  Model_save self db
  = (Ok (mkSectionObj (Some (fresh_pk (sections db))) (Some b)
                      (sec_parent_id self) (sec_dict self)),
     set_sections db (<[fresh_pk (sections db) :=
                          mkSectionRow b (sec_parent_id self)]> (sections db))).
Proof.
  intros Hid Hb Hbld Hfk.
  unfold Model_save, mbind, M_bind, bind, get_db.
  rewrite Hb, Hid. simpl default.
  change (row_exists (set_sections db ?t) Building b)
    with (row_exists db Building b).
  rewrite (row_exists_building _ _ Hbld), (fk_ok_written _ _ _ _ Hfk).
  reflexivity.
Qed.

(** C6.  A new section (no [id]) whose parent has a parent of its own is
    refused with [ValidationError] and the store keeps its rows; a new
    section of an existing building with no parent, or with a parent that
    has none, is saved: its row is added under a key that was free. *)
Theorem Section_save_nesting_limit (db : DB) (self : SectionObj) :
  sec_id self = None →
  (∀ p prow g,
      sec_parent_id self = Some p →
      sections db !! p = Some prow →
      srow_parent_id prow = Some g →
      is_Some (sections db !! g) →
      Section_save self db = (Raise (ValidationError nesting_message), db))
  ∧ (∀ b,
      sec_building_id self = Some b →
      is_Some (buildings db !! b) →
      sec_parent_id self = None
      ∨ (∃ p prow, sec_parent_id self = Some p
                   ∧ sections db !! p = Some prow
                   ∧ srow_parent_id prow = None) →
      ∃ pk,
        sections db !! pk = None
        ∧ Section_save self db
          = (Ok (mkSectionObj (Some pk) (Some b) (sec_parent_id self)
                              (sec_dict self)),
             set_sections db (<[pk := mkSectionRow b (sec_parent_id self)]>
                                (sections db)))).
Proof.
  intros Hid. split.
  - intros p prow g Hp Hprow Hg [grow Hgrow].
    unfold Section_save, nesting_exceeded, Section_parent.
    unfold mbind, M_bind, bind, get_db, ret.
    rewrite Hid, Hp. simpl. rewrite Hprow. simpl. rewrite Hg, Hgrow.
    reflexivity.
  - intros b Hb Hbld Hparent. exists (fresh_pk (sections db)).
    split; [apply fresh_pk_fresh |].
    assert (nesting_exceeded self db = (Ok false, db)) as Hok.
    { unfold nesting_exceeded, Section_parent.
      unfold mbind, M_bind, bind, get_db, ret. rewrite Hid. simpl.
      destruct Hparent as [-> | (p & prow & -> & Hprow & Hnone)]; [done |].
      rewrite Hprow. simpl. by rewrite Hnone. }
    unfold Section_save, mbind, M_bind, bind. rewrite Hok.
    apply Model_save_new; [done | done | done |].
    destruct Hparent as [-> | (p & prow & -> & Hprow & _)]; [done |].
    simpl. apply row_exists_section. by rewrite Hprow.
Qed.

Lemma Section_save_nesting_limit_witness :
  (Section_save (mkSectionObj None (Some 1) (Some 2) []) sample_db
   = (Raise (ValidationError nesting_message), sample_db))
  ∧ (∃ pk, sections sample_db !! pk = None
           ∧ Section_save (mkSectionObj None (Some 1) (Some 1) []) sample_db
             = (Ok (mkSectionObj (Some pk) (Some 1) (Some 1) []),
                set_sections sample_db
                  (<[pk := mkSectionRow 1 (Some 1)]> (sections sample_db))))
  ∧ (∃ pk, sections sample_db !! pk = None
           ∧ Section_save (mkSectionObj None (Some 1) None []) sample_db
             = (Ok (mkSectionObj (Some pk) (Some 1) None []),
                set_sections sample_db
                  (<[pk := mkSectionRow 1 None]> (sections sample_db)))).
Proof.
  split_and!.
  - exact (proj1 (Section_save_nesting_limit sample_db
                    (mkSectionObj None (Some 1) (Some 2) []) eq_refl)
             2 (mkSectionRow 1 (Some 1)) 1 eq_refl eq_refl eq_refl
             (ex_intro _ (mkSectionRow 1 None) eq_refl)).
  - exact (proj2 (Section_save_nesting_limit sample_db
                    (mkSectionObj None (Some 1) (Some 1) []) eq_refl)
             1 eq_refl (ex_intro _ (mkBuildingRow "house") eq_refl)
             (or_intror (ex_intro _ 1 (ex_intro _ (mkSectionRow 1 None)
                (conj eq_refl (conj eq_refl eq_refl)))))).
  - exact (proj2 (Section_save_nesting_limit sample_db
                    (mkSectionObj None (Some 1) None []) eq_refl)
             1 eq_refl (ex_intro _ (mkBuildingRow "house") eq_refl)
             (or_introl eq_refl)).
Defined.

(** ** Deleting a referenced row *)

Lemma related_fields_Building :
  related_fields Building
  = [(Section, mkField "building" (ForeignKey Building PROTECT false))].
Proof. reflexivity. Qed.

Lemma related_fields_Section :
  related_fields Section
  = [(Section, mkField "parent" (ForeignKey Section PROTECT true));
     (Expenditure, mkField "section" (ForeignKey Section PROTECT false))].
Proof. reflexivity. Qed.

(** One protected key with a referencing row: the collector raises. *)
Lemma collect_related_protected db pk src name to null k :
  k ∈ table_pks db src →
  row_get db src k (name +:+ "_id") = Some (VInt pk) →
  collect_related pk (src, mkField name (ForeignKey to PROTECT null)) db
  = (Raise ProtectedError, db).
Proof.
  intros Hk Hrow. unfold collect_related, mbind, M_bind, bind, get_db. simpl.
  change (attname _) with (name +:+ "_id").
  destruct (referencing_pks db src (name +:+ "_id") pk) as [| x l] eqn:Hrefs.
  - assert (k ∈ referencing_pks db src (name +:+ "_id") pk) as Hin
      by (by apply list_elem_of_filter).
    rewrite Hrefs in Hin. by apply elem_of_nil in Hin.
  - reflexivity.
Qed.

(** One protected key, in any store: the collector passes or raises, and
    leaves the store as it was. *)
Lemma collect_related_frame db pk src name to null :
  collect_related pk (src, mkField name (ForeignKey to PROTECT null)) db
  = (Ok tt, db)
  ∨ collect_related pk (src, mkField name (ForeignKey to PROTECT null)) db
    = (Raise ProtectedError, db).
Proof.
  unfold collect_related, mbind, M_bind, bind, get_db. simpl.
  destruct (referencing_pks _ _ _ _); [left | right]; reflexivity.
Qed.

Lemma section_in_table db s row :
  sections db !! s = Some row → s ∈ table_pks db Section.
Proof.
  intros H. apply list_elem_of_fmap. exists (s, row).
  split; [done | by apply elem_of_map_to_list].
Qed.

Lemma expenditure_in_table db e row :
  expenditures db !! e = Some row → e ∈ table_pks db Expenditure.
Proof.
  intros H. apply list_elem_of_fmap. exists (e, row).
  split; [done | by apply elem_of_map_to_list].
Qed.

(** C9.  Deleting a building, section or expenditure that a dependent row
    references raises [ProtectedError] (an [IntegrityError]) and changes
    nothing in the store: the row stays, and so do its dependents. *)
Theorem Model_delete_protected (db : DB) (m : ModelName) (pk : Z) :
  has_dependent db m pk →
  Model_delete m pk db = (Raise ProtectedError, db)
  ∧ is_integrity_error ProtectedError = true.
Proof.
  intros Hdep. split; [| done].
  unfold Model_delete, collect, mbind, M_bind, bind.
  destruct m; simpl in Hdep.
  - destruct Hdep as (s & row & Hrow & Hb).
    rewrite related_fields_Building. simpl.
    unfold mbind, M_bind, bind.
    rewrite (collect_related_protected db pk Section "building" Building false s);
      [done | by eapply section_in_table |].
    unfold row_get. rewrite Hrow. simpl. by rewrite <- Hb.
  - rewrite related_fields_Section. simpl. unfold mbind, M_bind, bind.
    destruct Hdep as [(s & row & Hrow & Hp) | (e & row & Hrow & Hs)].
    + rewrite (collect_related_protected db pk Section "parent" Section true s);
        [done | by eapply section_in_table |].
      unfold row_get. rewrite Hrow. simpl.
      change (section_col s row "parent_id" = Some (VInt pk)).
      unfold section_col. simpl. by rewrite Hp.
    + destruct (collect_related_frame db pk Section "parent" Section true)
        as [-> | ->]; [| done].
      rewrite (collect_related_protected db pk Expenditure "section" Section
                 false e); [done | by eapply expenditure_in_table |].
      unfold row_get. rewrite Hrow. simpl. by rewrite <- Hs.
  - done.
Qed.

Lemma Model_delete_protected_witness :
  (has_dependent sample_db Building 1
   ∧ Model_delete Building 1 sample_db = (Raise ProtectedError, sample_db))
  ∧ (has_dependent sample_db Section 1
     ∧ Model_delete Section 1 sample_db = (Raise ProtectedError, sample_db))
  ∧ (has_dependent sample_db Section 2
     ∧ Model_delete Section 2 sample_db = (Raise ProtectedError, sample_db)).
Proof.
  assert (H1 : has_dependent sample_db Building 1)
    by (exists 1, (mkSectionRow 1 None); by split).
  assert (H2 : has_dependent sample_db Section 1)
    by (left; exists 2, (mkSectionRow 1 (Some 1)); by split).
  assert (H3 : has_dependent sample_db Section 2)
    by (right;
        exists 3, (mkExpenditureRow 2 "bricks" Types_MATERIAL (quantity 3)
                     (money 400)); by split).
  exact (conj (conj H1 (proj1 (Model_delete_protected sample_db Building 1 H1)))
           (conj (conj H2 (proj1 (Model_delete_protected sample_db Section 1 H2)))
              (conj H3 (proj1 (Model_delete_protected sample_db Section 2 H3))))).
Defined.

(** Without a dependent row the deletion goes through: a childless,
    unreferenced section is removed. *)
Example Model_delete_unreferenced :
  (Model_delete Expenditure 3 sample_db).1 = Ok tt
  ∧ expenditures (Model_delete Expenditure 3 sample_db).2 !! 3 = None
  ∧ (Model_delete Section 2 (Model_delete Expenditure 3 sample_db).2).1 = Ok tt
  ∧ sections (Model_delete Section 2 (Model_delete Expenditure 3 sample_db).2).2
      !! 2 = None.
Proof. by vm_compute. Qed.

(** ** The reports *)

(** On [Section], the name [section] is the reverse side of [parent] (the
    child sections); the expenditures of a section are reached as
    [expenditure].  A section has no [price] and no [count]. *)
Lemma section_lookup_on_Section :
  get_field Section "section"
  = Some (ReverseOf Section (mkField "parent" (ForeignKey Section PROTECT true)))
  ∧ get_field Section "expenditure"
    = Some (ReverseOf Expenditure
              (mkField "section" (ForeignKey Section PROTECT false)))
  ∧ get_field Section "price" = None
  ∧ get_field Section "count" = None.
Proof. by split_and!. Qed.

(** On [Building], the sections are reached as [section]; [building] is no
    name on it. *)
Lemma building_lookup_on_Building :
  get_field Building "building" = None
  ∧ get_field Building "section"
    = Some (ReverseOf Section
              (mkField "building" (ForeignKey Building PROTECT false))).
Proof. by split_and!. Qed.

(** Whatever the building and the store, [get_parent_sections] raises
    [FieldError] while it annotates: no query is sent, nothing is
    returned. *)
Lemma get_parent_sections_raises building_id db :
  get_parent_sections building_id db = (Raise FieldError, db).
Proof. reflexivity. Qed.

Lemma get_buildings_raises db : get_buildings db = (Raise FieldError, db).
Proof. reflexivity. Qed.

(** C2 (the code departs from it).  On the sample store, where the root
    section of building 1 carries 2 × 10.00 and 1 × 5.00, the call returns
    no section with a [budget_parent] of 25.00: it raises [FieldError],
    because [section__price] leads from a section to its child sections,
    which have no price. *)
Theorem get_parent_sections_sample :
  get_parent_sections 1 sample_db = (Raise FieldError, sample_db)
  ∧ resolve_expression Section [] budget_parent_expr = Raise FieldError.
Proof. split; [apply get_parent_sections_raises | reflexivity]. Qed.

(** C3 (the code departs from it).  The [budget_child] annotation does not
    resolve on [Section] either, in any query on it that has no annotation
    yet (same lookups as [budget_parent]); and its condition compares the
    root's own [parent] with an [OuterRef], which no top-level query can
    evaluate. *)
Theorem budget_child_does_not_resolve :
  (∀ conds prefetch,
      annotate [("budget_child", budget_child_expr)]
               (mkQuery Section conds [] prefetch) = Raise FieldError)
  ∧ build_filter Section (Q "parent" (OuterRef "pk"))
    = Ok (mkCond (mkPath [] "parent_id") Exact (OuterRef "pk"))
  ∧ compile_cond (mkCond (mkPath [] "parent_id") Exact (OuterRef "pk"))
    = Raise ValueError.
Proof. by split_and!. Qed.

(** C4 (the code departs from it).  On a store whose only section is a
    root carrying 2 × 10.00 and 1 × 5.00, with no child section, the call
    returns no section with a [budget_all] of 25.00: it raises [FieldError]
    while annotating [budget_parent], before [budget_all] is looked at. *)
Theorem get_parent_sections_childless_root :
  get_parent_sections 1 childless_db = (Raise FieldError, childless_db).
Proof. apply get_parent_sections_raises. Qed.

(** C5 (the code departs from it).  On the sample store the call returns no
    record at all: it raises [FieldError], because [building] is not a name
    on [Building]. *)
Theorem get_buildings_sample :
  get_buildings sample_db = (Raise FieldError, sample_db)
  ∧ resolve_ref Building "building__section__count" = Raise FieldError.
Proof. split; [apply get_buildings_raises | reflexivity]. Qed.

(** ** The query model on lookups that resolve *)

(** The root section of building 1 gets 2 × 10.00 + 1 × 5.00 = 25.00 as
    [budget_parent]; a condition on the root's own [parent], which is null,
    holds on no row, so [budget_child] is null, and so is [budget_all]. *)
Example parent_sections_query_sample :
  (q ← parent_sections_query 1; execute sample_db q)
  = Ok [(1, [("budget_parent", VDec (mkDecimal 250000000000 (-10)));
             ("budget_child", VNone);
             ("budget_all", VNone)])].
Proof. by vm_compute. Qed.

(** Building 1 gets 25.00 of works and 12.00 of materials; building 2, with
    nothing under it, gets null for both, not zero. *)
Example buildings_query_sample :
  (q ← buildings_query; execute sample_db q)
  = Ok [(2, [("works_amount", VNone); ("materials_amount", VNone)]);
        (1, [("works_amount", VDec (mkDecimal 250000000000 (-10)));
             ("materials_amount", VDec (mkDecimal 120000000000 (-10)))])].
Proof. by vm_compute. Qed.

(** * Further properties *)

(** ** Outcomes of the discount update *)

(** X1.  On a finite discount, [update_with_discount] never returns and
    never changes the store: out of range it raises [TypeError]; in range it
    raises [DoesNotExist] when no section is stored under the identifier and
    [AttributeError] when one is.  (A [Decimal] here is a finite number; NaN
    and the infinities are not covered.) *)
Theorem update_with_discount_outcomes (section_id : Z) (d : Decimal) (db : DB) :
  update_with_discount section_id d db
  = (Raise (if dec_ltb d (dec_of_Z 0) || dec_gtb d (dec_of_Z 100) then TypeError
            else if bool_decide (is_Some (sections db !! section_id))
                 then AttributeError
                 else DoesNotExist),
     db).
Proof.
  destruct (in_or_out_of_range d) as [Hin | Hout].
  - rewrite (guard_in_range d Hin).
    destruct (sections db !! section_id) as [row |] eqn:Hrow.
    + rewrite bool_decide_eq_true_2 by done.
      by eapply update_with_discount_stored.
    + rewrite bool_decide_eq_false_2 by (by intros [? ?]).
      unfold update_with_discount. rewrite (guard_in_range d Hin).
      unfold Section_objects_get, mbind, M_bind, bind, get_db. by rewrite Hrow.
  - rewrite (guard_out_of_range d Hout).
    by apply update_with_discount_out_of_range.
Qed.

(** ** Outcomes of the reports *)

(** X2.  For every building identifier and every store,
    [get_parent_sections] raises [FieldError] and leaves the store as it
    was; the annotations fail on any query on [Section] that has none yet,
    whatever its conditions and prefetch lookups. *)
Theorem get_parent_sections_never_returns (building_id : Z) (db : DB) :
  get_parent_sections building_id db = (Raise FieldError, db)
  ∧ ∀ conds prefetch,
      annotate [ ("budget_parent", budget_parent_expr);
                 ("budget_child", budget_child_expr);
                 ("budget_all", budget_all_expr) ]
               (mkQuery Section conds [] prefetch)
      = Raise FieldError.
Proof. by split. Qed.

(** X3.  For every store, [get_buildings] raises [FieldError] and leaves the
    store as it was; neither amount resolves on [Building], whatever the
    expenditure type asked for. *)
Theorem get_buildings_never_returns (db : DB) :
  get_buildings db = (Raise FieldError, db)
  ∧ ∀ type, resolve_expression Building [] (amount_expr type) = Raise FieldError.
Proof. by split. Qed.

(** ** Outcomes of [Section.save] *)

(** The framework's save either refuses the row with [IntegrityError],
    leaving the store as it was, or writes it under [saved_key]. *)
Lemma Model_save_cases self db :
  Model_save self db = (Raise IntegrityError, db)
  ∨ ∃ b,
      sec_building_id self = Some b
      ∧ is_Some (buildings db !! b)
      ∧ Model_save self db
        = (Ok (mkSectionObj (Some (saved_key db self)) (Some b)
                            (sec_parent_id self) (sec_dict self)),
           set_sections db (<[saved_key db self :=
                                mkSectionRow b (sec_parent_id self)]>
                              (sections db))).
Proof.
  unfold Model_save, mbind, M_bind, bind, get_db, saved_key.
  destruct (sec_building_id self) as [b |]; [| by left].
  change (row_exists (set_sections db ?t) Building b)
    with (row_exists db Building b).
  destruct (row_exists db Building b) eqn:Hb; [| by left].
  destruct (fk_ok _ Section (sec_parent_id self)) eqn:Hfk; [| by left].
  right. exists b. split_and!; try done.
  by apply bool_decide_eq_true in Hb.
Qed.

(** With a stored building and a stored (or no) parent the row is written,
    whatever the key of the instance. *)
Lemma Model_save_stored_refs db self b :
  sec_building_id self = Some b →
  is_Some (buildings db !! b) →
  fk_ok db Section (sec_parent_id self) = true →
  Model_save self db
  = (Ok (mkSectionObj (Some (saved_key db self)) (Some b)
                      (sec_parent_id self) (sec_dict self)),
     set_sections db (<[saved_key db self :=
                          mkSectionRow b (sec_parent_id self)]> (sections db))).
Proof.
  intros Hb Hbld Hfk.
  unfold Model_save, mbind, M_bind, bind, get_db, saved_key.
  rewrite Hb.
  change (row_exists (set_sections db ?t) Building b)
    with (row_exists db Building b).
  rewrite (row_exists_building _ _ Hbld), (fk_ok_written _ _ _ _ Hfk).
  reflexivity.
Qed.

(** An instance with a true [id] is not checked. *)
Lemma nesting_exceeded_with_id self db :
  py_bool_id (sec_id self) = true → nesting_exceeded self db = (Ok false, db).
Proof. intros H. unfold nesting_exceeded. by rewrite H. Qed.

(** An instance without one is checked against the stored rows: the check
    finds two levels above it, or meets a key that references nothing, or
    passes. *)
Lemma nesting_exceeded_cases self db :
  py_bool_id (sec_id self) = false →
  (nested_parent db self ∧ nesting_exceeded self db = (Ok true, db))
  ∨ (dangling_parent db self
     ∧ nesting_exceeded self db = (Raise DoesNotExist, db))
  ∨ (¬ nested_parent db self
     ∧ (sec_parent_id self = None
        ∨ ∃ p prow, sec_parent_id self = Some p
                    ∧ sections db !! p = Some prow
                    ∧ srow_parent_id prow = None)
     ∧ nesting_exceeded self db = (Ok false, db)).
Proof.
  intros Hid. unfold nesting_exceeded, Section_parent.
  unfold mbind, M_bind, bind, get_db, ret, raise. rewrite Hid. simpl.
  destruct (sec_parent_id self) as [p |] eqn:Hp.
  - destruct (sections db !! p) as [prow |] eqn:Hprow; simpl.
    + destruct (srow_parent_id prow) as [g |] eqn:Hg.
      * destruct (sections db !! g) as [grow |] eqn:Hgrow.
        -- left. split; [| done]. exists p, prow, g. by split_and!.
        -- right; left. split; [| done]. exists p. split; [done |].
           right. by exists prow, g.
      * right; right. split_and!; [| right; by exists p, prow | done].
        intros (p' & prow' & g & Hp' & Hprow' & Hg' & _). congruence.
    + right; left. split; [| done]. exists p. by split; [| left].
  - right; right. split_and!; [| by left | done].
    intros (p & prow & g & Hp' & _). congruence.
Qed.

Lemma nested_not_dangling db self :
  nested_parent db self → ¬ dangling_parent db self.
Proof.
  intros (p & prow & g & Hp & Hprow & Hg & [grow Hgrow]) (p' & Hp' & Hd).
  assert (p' = p) as -> by congruence.
  destruct Hd as [Hnone | (prow' & g' & Hprow' & Hg' & Hnone)]; congruence.
Qed.

(** X4.  [Section.save] raises [ValidationError] exactly when the instance
    has no true [id] (none, or 0) and its stored parent has a stored parent;
    the message is the one of line 25 and the store is left as it was. *)
Theorem Section_save_validation_error_iff (self : SectionObj) (db db' : DB)
    (message : string) :
  Section_save self db = (Raise (ValidationError message), db')
  ↔ py_bool_id (sec_id self) = false
    ∧ nested_parent db self
    ∧ message = nesting_message
    ∧ db' = db.
Proof.
  unfold Section_save, mbind, M_bind, bind. split.
  - destruct (py_bool_id (sec_id self)) eqn:Hid.
    + rewrite (nesting_exceeded_with_id self db Hid).
      destruct (Model_save_cases self db) as [-> | (b & _ & _ & ->)];
        discriminate.
    + destruct (nesting_exceeded_cases self db Hid)
        as [[Hn ->] | [[_ ->] | (_ & _ & ->)]].
      * simpl. intros [= <- <-]. done.
      * discriminate.
      * destruct (Model_save_cases self db) as [-> | (b & _ & _ & ->)];
          discriminate.
  - intros (Hid & Hn & -> & ->).
    destruct (nesting_exceeded_cases self db Hid)
      as [[_ ->] | [[Hd _] | (Hnot & _)]]; [done | |].
    + by destruct (nested_not_dangling db self).
    + done.
Qed.

(** X12.  A new section whose parent key, or whose parent's parent key,
    references no stored row is refused with [DoesNotExist], raised by the
    access to the related object in the check; the store is left as it
    was. *)
Theorem Section_save_dangling_parent (self : SectionObj) (db : DB) :
  py_bool_id (sec_id self) = false →
  dangling_parent db self →
  Section_save self db = (Raise DoesNotExist, db).
Proof.
  intros Hid Hd. unfold Section_save, mbind, M_bind, bind.
  destruct (nesting_exceeded_cases self db Hid)
    as [[Hn _] | [[_ ->] | (_ & Hok & _)]]; [| done |].
  - by destruct (nested_not_dangling db self).
  - destruct Hd as (p & Hp & Hd).
    destruct Hok as [Hnone | (p' & prow & Hp' & Hprow & Hg)]; [congruence |].
    assert (p' = p) as -> by congruence.
    destruct Hd as [Hnone | (prow' & g & Hprow' & Hg' & _)]; congruence.
Qed.

Lemma Section_save_dangling_parent_witness :
  py_bool_id None = false
  ∧ dangling_parent sample_db (mkSectionObj None (Some 1) (Some 7) [])
  ∧ Section_save (mkSectionObj None (Some 1) (Some 7) []) sample_db
    = (Raise DoesNotExist, sample_db).
Proof.
  assert (Hd : dangling_parent sample_db (mkSectionObj None (Some 1) (Some 7) []))
    by (exists 7; split; [done | by left]).
  exact (conj eq_refl (conj Hd
           (Section_save_dangling_parent
              (mkSectionObj None (Some 1) (Some 7) []) sample_db eq_refl Hd))).
Defined.

(** [Section.save] either raises and leaves the store as it was, or writes
    the row of the instance under [saved_key]; an instance without a true
    [id] gets that far only with no parent or with a stored root as
    parent. *)
Lemma Section_save_cases self db :
  (∃ e, Section_save self db = (Raise e, db))
  ∨ ∃ b,
      sec_building_id self = Some b
      ∧ is_Some (buildings db !! b)
      ∧ (py_bool_id (sec_id self) = false →
         sec_parent_id self = None
         ∨ ∃ p prow, sec_parent_id self = Some p
                     ∧ sections db !! p = Some prow
                     ∧ srow_parent_id prow = None)
      ∧ Section_save self db
        = (Ok (mkSectionObj (Some (saved_key db self)) (Some b)
                            (sec_parent_id self) (sec_dict self)),
           set_sections db (<[saved_key db self :=
                                mkSectionRow b (sec_parent_id self)]>
                              (sections db))).
Proof.
  unfold Section_save, mbind, M_bind, bind.
  destruct (py_bool_id (sec_id self)) eqn:Hid.
  - rewrite (nesting_exceeded_with_id self db Hid).
    destruct (Model_save_cases self db) as [-> | (b & Hb & Hbld & ->)];
      [left; by eexists | right; exists b; by split_and!].
  - destruct (nesting_exceeded_cases self db Hid)
      as [[_ ->] | [[_ ->] | (_ & Hroot & ->)]];
      [left; by eexists | left; by eexists |].
    destruct (Model_save_cases self db) as [-> | (b & Hb & Hbld & ->)];
      [left; by eexists | right; exists b; by split_and!].
Qed.

(** X6.  [Section.save] touches one row of the sections table at most: when
    it raises, the store is as it was; when it returns, the instance carries
    the key its row was written under (its own key if it had one, else a key
    that was free), buildings and expenditures are as they were, and so is
    every section under another key. *)
Theorem Section_save_frame (self : SectionObj) (db : DB) :
  match Section_save self db with
  | (Raise _, db') => db' = db
  | (Ok obj, db') =>
      ∃ pk,
        sec_id obj = Some pk
        ∧ (∀ k, sec_id self = Some k → pk = k)
        ∧ (sec_id self = None → sections db !! pk = None)
        ∧ is_Some (sections db' !! pk)
        ∧ buildings db' = buildings db
        ∧ expenditures db' = expenditures db
        ∧ ∀ k, k ≠ pk → sections db' !! k = sections db !! k
  end.
Proof.
  destruct (Section_save_cases self db) as [[e ->] | (b & _ & _ & _ & ->)];
    [done |].
  exists (saved_key db self). unfold saved_key. split_and!; try done.
  - intros k ->. done.
  - intros ->. simpl. apply fresh_pk_fresh.
  - simpl. rewrite lookup_insert_eq. by eexists.
  - intros k Hk. simpl. by rewrite lookup_insert_ne.
Qed.

(** X7.  What a successful [Section.save] wrote is what [objects.get] reads
    back under the instance's key: the building and the parent of the
    instance.  Attributes of the instance that are not fields are not
    stored. *)
Theorem Section_save_then_get (self obj : SectionObj) (db db' : DB) :
  Section_save self db = (Ok obj, db') →
  ∃ pk,
    sec_id obj = Some pk
    ∧ Section_objects_get pk db'
      = (Ok (mkSectionObj (Some pk) (sec_building_id self) (sec_parent_id self) []),
         db').
Proof.
  intros Hsave.
  destruct (Section_save_cases self db) as [[e He] | (b & Hb & _ & _ & He)];
    rewrite He in Hsave; [discriminate |].
  injection Hsave as <- <-. exists (saved_key db self). split; [done |].
  unfold Section_objects_get, mbind, M_bind, bind, get_db. simpl.
  rewrite lookup_insert_eq. unfold Section_from_db. simpl. by rewrite Hb.
Qed.

Lemma Section_save_then_get_witness :
  ∃ obj db',
    Section_save
      (mkSectionObj None (Some 1) (Some 1) [("price", VDec (money 20000))])
      sample_db = (Ok obj, db')
    ∧ ∃ pk, sec_id obj = Some pk
            ∧ Section_objects_get pk db'
              = (Ok (mkSectionObj (Some pk) (Some 1) (Some 1) []), db').
Proof.
  eexists _, _. split; [by vm_compute |].
  exact (Section_save_then_get
           (mkSectionObj None (Some 1) (Some 1) [("price", VDec (money 20000))])
           _ sample_db _ eq_refl).
Defined.

(** ** The two-level hierarchy *)

Lemma fk_ok_nested db self : nested_parent db self →
  fk_ok db Section (sec_parent_id self) = true.
Proof.
  intros (p & prow & g & -> & Hprow & _). simpl.
  apply row_exists_section. by rewrite Hprow.
Qed.

(** X5.  The check is made on creation only: re-saving an instance that has
    a non-zero [id] with a parent that has a parent of its own is accepted,
    the row is overwritten, and the store then holds a chain of three
    levels. *)
Theorem Section_save_update_skips_check (self : SectionObj) (db : DB) (pk b : Z) :
  sec_id self = Some pk →
  pk ≠ 0 →
  sec_building_id self = Some b →
  is_Some (buildings db !! b) →
  nested_parent db self →
  ∃ obj db',
    Section_save self db = (Ok obj, db')
    ∧ sections db' !! pk = Some (mkSectionRow b (sec_parent_id self))
    ∧ ¬ two_levels db'.
Proof.
  intros Hid Hpk Hb Hbld Hn.
  assert (py_bool_id (sec_id self) = true) as Htrue.
  { rewrite Hid. simpl. apply negb_true_iff. by apply Z.eqb_neq. }
  eexists _, _. split_and!.
  - unfold Section_save, mbind, M_bind, bind.
    rewrite (nesting_exceeded_with_id self db Htrue).
    exact (Model_save_stored_refs db self b Hb Hbld (fk_ok_nested db self Hn)).
  - unfold saved_key. rewrite Hid. simpl. apply lookup_insert_eq.
  - unfold saved_key. rewrite Hid. simpl. intros Htwo.
    destruct Hn as (p & prow & g & Hp & Hprow & Hg & _).
    destruct (decide (p = pk)) as [-> | Hne].
    + specialize (Htwo pk (mkSectionRow b (sec_parent_id self)) pk
                       (mkSectionRow b (sec_parent_id self))).
      simpl in Htwo. rewrite lookup_insert_eq in Htwo.
      specialize (Htwo eq_refl Hp eq_refl). congruence.
    + specialize (Htwo pk (mkSectionRow b (sec_parent_id self)) p prow).
      simpl in Htwo. rewrite lookup_insert_eq, lookup_insert_ne in Htwo by done.
      specialize (Htwo eq_refl Hp Hprow). congruence.
Qed.

Lemma Section_save_update_skips_check_witness :
  nested_parent sample_db (mkSectionObj (Some 1) (Some 1) (Some 2) [])
  ∧ ∃ obj db',
      Section_save (mkSectionObj (Some 1) (Some 1) (Some 2) []) sample_db
      = (Ok obj, db')
      ∧ sections db' !! 1 = Some (mkSectionRow 1 (Some 2))
      ∧ ¬ two_levels db'.
Proof.
  assert (Hn : nested_parent sample_db (mkSectionObj (Some 1) (Some 1) (Some 2) [])).
  { exists 2, (mkSectionRow 1 (Some 1)), 1. by split_and!. }
  assert (Hpk : (1 : Z) ≠ 0) by lia.
  exact (conj Hn
           (Section_save_update_skips_check
              (mkSectionObj (Some 1) (Some 1) (Some 2) []) sample_db 1 1
              eq_refl Hpk eq_refl
              (ex_intro _ (mkBuildingRow "house") eq_refl) Hn)).
Defined.

(** X8.  Creation keeps the hierarchy at two levels: in a store whose
    references are closed and whose sections form two levels, a new section
    that [Section.save] accepts leaves a store of two levels. *)
Theorem Section_save_new_keeps_two_levels (self obj : SectionObj) (db db' : DB) :
  refs_closed db →
  two_levels db →
  sec_id self = None →
  Section_save self db = (Ok obj, db') →
  two_levels db'.
Proof.
  intros [Hclosed _] Htwo Hid Hsave.
  destruct (Section_save_cases self db)
    as [[e He] | (b & Hb & _ & Hroot & He)];
    rewrite He in Hsave; [discriminate |].
  injection Hsave as <- <-.
  assert (saved_key db self = fresh_pk (sections db)) as Hkey
    by (unfold saved_key; by rewrite Hid).
  rewrite Hkey. clear He Hkey.
  specialize (Hroot ltac:(by rewrite Hid)).
  pose proof (fresh_pk_fresh (sections db)) as Hfresh.
  intros s row p prow Hrow Hp Hprow. simpl in Hrow, Hprow.
  assert (p ≠ fresh_pk (sections db)) as Hpne.
  { intros ->. destruct (decide (s = fresh_pk (sections db))) as [-> | Hs].
    - rewrite lookup_insert_eq in Hrow. injection Hrow as <-. simpl in Hp.
      destruct Hroot as [Hnone | (p' & prow' & Hp' & Hprow' & _)]; congruence.
    - rewrite lookup_insert_ne in Hrow by done.
      destruct (Hclosed s row Hrow) as [_ Hpar]. specialize (Hpar _ Hp).
      rewrite Hfresh in Hpar. by destruct Hpar. }
  rewrite lookup_insert_ne in Hprow by done.
  destruct (decide (s = fresh_pk (sections db))) as [-> | Hs].
  - rewrite lookup_insert_eq in Hrow. injection Hrow as <-. simpl in Hp.
    destruct Hroot as [Hnone | (p' & prow' & Hp' & Hprow' & Hnone)];
      congruence.
  - rewrite lookup_insert_ne in Hrow by done.
    exact (Htwo s row p prow Hrow Hp Hprow).
Qed.

(** The sample store: its rows, its references, its levels. *)
Lemma sample_sections s row :
  sections sample_db !! s = Some row →
  (s = 1 ∧ row = mkSectionRow 1 None) ∨ (s = 2 ∧ row = mkSectionRow 1 (Some 1)).
Proof.
  unfold sample_db. simpl. intros H.
  destruct (decide (s = 2)) as [-> | H2].
  - rewrite lookup_insert_eq in H. right. split; congruence.
  - rewrite lookup_insert_ne in H by done.
    destruct (decide (s = 1)) as [-> | H1].
    + rewrite lookup_insert_eq in H. left. split; congruence.
    + rewrite lookup_insert_ne in H by done. by rewrite lookup_empty in H.
Qed.

Lemma sample_expenditures e row :
  expenditures sample_db !! e = Some row →
  erow_section_id row = 1 ∨ erow_section_id row = 2.
Proof.
  unfold sample_db. simpl. intros H.
  destruct (decide (e = 3)) as [-> | H3].
  { rewrite lookup_insert_eq in H. injection H as <-. by right. }
  rewrite lookup_insert_ne in H by done.
  destruct (decide (e = 2)) as [-> | H2].
  { rewrite lookup_insert_eq in H. injection H as <-. by left. }
  rewrite lookup_insert_ne in H by done.
  destruct (decide (e = 1)) as [-> | H1].
  { rewrite lookup_insert_eq in H. injection H as <-. by left. }
  rewrite lookup_insert_ne in H by done. by rewrite lookup_empty in H.
Qed.

Lemma sample_refs_closed : refs_closed sample_db.
Proof.
  split.
  - intros s row Hrow.
    destruct (sample_sections s row Hrow) as [[-> ->] | [-> ->]]; simpl.
    + split; [by eexists | done].
    + split; [by eexists |]. intros p [= <-]. by eexists.
  - intros e row Hrow.
    destruct (sample_expenditures e row Hrow) as [-> | ->]; by eexists.
Qed.

Lemma sample_two_levels : two_levels sample_db.
Proof.
  intros s row p prow Hrow Hp Hprow.
  destruct (sample_sections s row Hrow) as [[-> ->] | [-> ->]]; simpl in Hp;
    [done |].
  injection Hp as <-.
  by destruct (sample_sections 1 prow Hprow) as [[_ ->] | [? _]].
Qed.

Lemma Section_save_new_keeps_two_levels_witness :
  ∃ obj db',
    Section_save (mkSectionObj None (Some 1) (Some 1) []) sample_db = (Ok obj, db')
    ∧ two_levels db'.
Proof.
  eexists _, _. split; [by vm_compute |].
  exact (Section_save_new_keeps_two_levels
           (mkSectionObj None (Some 1) (Some 1) []) _ sample_db _
           sample_refs_closed sample_two_levels eq_refl eq_refl).
Defined.

(** ** Deleting *)

Lemma section_in_table_inv db k :
  k ∈ table_pks db Section → ∃ row, sections db !! k = Some row.
Proof.
  intros H. apply list_elem_of_fmap in H as [[k' row] [-> H]].
  exists row. by apply elem_of_map_to_list in H.
Qed.

Lemma expenditure_in_table_inv db k :
  k ∈ table_pks db Expenditure → ∃ row, expenditures db !! k = Some row.
Proof.
  intros H. apply list_elem_of_fmap in H as [[k' row] [-> H]].
  exists row. by apply elem_of_map_to_list in H.
Qed.

(** A referencing row, read back as a stored row. *)
Lemma referencing_building db pk k :
  k ∈ referencing_pks db Section "building_id" pk →
  ∃ row, sections db !! k = Some row ∧ srow_building_id row = pk.
Proof.
  intros H. apply list_elem_of_filter in H as [Hget Hk].
  destruct (section_in_table_inv db k Hk) as [row Hrow]. exists row.
  split; [done |]. unfold row_get in Hget. rewrite Hrow in Hget.
  simpl in Hget. unfold section_col in Hget. simpl in Hget. congruence.
Qed.

Lemma referencing_parent db pk k :
  k ∈ referencing_pks db Section "parent_id" pk →
  ∃ row, sections db !! k = Some row ∧ srow_parent_id row = Some pk.
Proof.
  intros H. apply list_elem_of_filter in H as [Hget Hk].
  destruct (section_in_table_inv db k Hk) as [row Hrow]. exists row.
  split; [done |]. unfold row_get in Hget. rewrite Hrow in Hget.
  simpl in Hget. unfold section_col in Hget. simpl in Hget.
  destruct (srow_parent_id row); simpl in Hget; congruence.
Qed.

Lemma referencing_section db pk k :
  k ∈ referencing_pks db Expenditure "section_id" pk →
  ∃ row, expenditures db !! k = Some row ∧ erow_section_id row = pk.
Proof.
  intros H. apply list_elem_of_filter in H as [Hget Hk].
  destruct (expenditure_in_table_inv db k Hk) as [row Hrow]. exists row.
  split; [done |]. unfold row_get in Hget. rewrite Hrow in Hget.
  simpl in Hget. unfold expenditure_col in Hget. simpl in Hget. congruence.
Qed.

Lemma has_dependent_building db pk :
  has_dependent db Building pk
  ↔ referencing_pks db Section "building_id" pk ≠ [].
Proof.
  split.
  - intros (s & row & Hrow & Hb) Hnil.
    assert (s ∈ referencing_pks db Section "building_id" pk) as Hin.
    { apply list_elem_of_filter. split; [| by eapply section_in_table].
      unfold row_get. rewrite Hrow. simpl. by rewrite <- Hb. }
    rewrite Hnil in Hin. by apply elem_of_nil in Hin.
  - destruct (referencing_pks db Section "building_id" pk) as [| k l] eqn:Hrefs;
      [done |]. intros _.
    destruct (referencing_building db pk k) as (row & Hrow & Hb);
      [rewrite Hrefs; apply list_elem_of_here |].
    by exists k, row.
Qed.

Lemma has_dependent_section db pk :
  has_dependent db Section pk
  ↔ referencing_pks db Section "parent_id" pk ≠ []
    ∨ referencing_pks db Expenditure "section_id" pk ≠ [].
Proof.
  split.
  - intros [(s & row & Hrow & Hp) | (e & row & Hrow & Hs)]; [left | right];
      intros Hnil.
    + assert (s ∈ referencing_pks db Section "parent_id" pk) as Hin.
      { apply list_elem_of_filter. split; [| by eapply section_in_table].
        unfold row_get. rewrite Hrow. simpl. unfold section_col. simpl.
        by rewrite Hp. }
      rewrite Hnil in Hin. by apply elem_of_nil in Hin.
    + assert (e ∈ referencing_pks db Expenditure "section_id" pk) as Hin.
      { apply list_elem_of_filter. split; [| by eapply expenditure_in_table].
        unfold row_get. rewrite Hrow. simpl. by rewrite <- Hs. }
      rewrite Hnil in Hin. by apply elem_of_nil in Hin.
  - intros [H | H].
    + destruct (referencing_pks db Section "parent_id" pk) as [| k l] eqn:Hrefs;
        [done |].
      destruct (referencing_parent db pk k) as (row & Hrow & Hp);
        [rewrite Hrefs; apply list_elem_of_here |].
      left. by exists k, row.
    + destruct (referencing_pks db Expenditure "section_id" pk)
        as [| k l] eqn:Hrefs; [done |].
      destruct (referencing_section db pk k) as (row & Hrow & Hs);
        [rewrite Hrefs; apply list_elem_of_here |].
      right. by exists k, row.
Qed.

(** The framework's delete either raises [ProtectedError] on a referenced
    row, leaving the store as it was, or removes an unreferenced one. *)
Lemma Model_delete_cases db m pk :
  (has_dependent db m pk ∧ Model_delete m pk db = (Raise ProtectedError, db))
  ∨ (¬ has_dependent db m pk
     ∧ Model_delete m pk db = (Ok tt, delete_from db m pk)).
Proof.
  destruct m.
  - rewrite has_dependent_building.
    unfold Model_delete, collect. rewrite related_fields_Building.
    unfold mbind, M_bind, bind. simpl.
    unfold collect_related, mbind, M_bind, bind, get_db. simpl.
    change (attname _) with "building_id".
    destruct (referencing_pks db Section "building_id" pk).
    + right. split; [intros H; by apply H | reflexivity].
    + left. split; [done | reflexivity].
  - rewrite has_dependent_section.
    unfold Model_delete, collect. rewrite related_fields_Section.
    unfold mbind, M_bind, bind. simpl.
    unfold collect_related, mbind, M_bind, bind, get_db. simpl.
    change (attname (mkField "parent" _)) with "parent_id".
    change (attname (mkField "section" _)) with "section_id".
    destruct (referencing_pks db Section "parent_id" pk);
      [| left; split; [by left | reflexivity]].
    unfold ret. simpl.
    destruct (referencing_pks db Expenditure "section_id" pk).
    + right. split; [intros [H | H]; by apply H | reflexivity].
    + left. split; [by right | reflexivity].
  - right. by split; [intros [] |].
Qed.

(** X9.  A row that no stored row references is deleted, and nothing else
    is: the store afterwards is the store without that row.  An expenditure
    is never referenced, so it can always be deleted. *)
Theorem Model_delete_unreferenced_row (db : DB) (m : ModelName) (pk : Z) :
  ¬ has_dependent db m pk →
  Model_delete m pk db = (Ok tt, delete_from db m pk).
Proof.
  intros Hno. by destruct (Model_delete_cases db m pk) as [[? _] | [_ ?]].
Qed.

Lemma Model_delete_unreferenced_row_witness :
  ¬ has_dependent sample_db Expenditure 3
  ∧ Model_delete Expenditure 3 sample_db
    = (Ok tt, delete_from sample_db Expenditure 3).
Proof.
  assert (Hno : ¬ has_dependent sample_db Expenditure 3) by (by intros []).
  exact (conj Hno (Model_delete_unreferenced_row sample_db Expenditure 3 Hno)).
Defined.

(** X10.  Deleting keeps the references of the store closed, whatever the
    row and whatever the outcome: a row is removed only when no stored row
    references it. *)
Theorem Model_delete_keeps_refs_closed (db db' : DB) (m : ModelName) (pk : Z)
    (r : Result unit) :
  refs_closed db →
  Model_delete m pk db = (r, db') →
  refs_closed db'.
Proof.
  intros [Hsec Hexp] Hdel.
  destruct (Model_delete_cases db m pk) as [[_ He] | [Hno He]];
    rewrite He in Hdel; injection Hdel as <- <-; [done |].
  destruct m; simpl in Hno; split; simpl.
  - intros s row Hrow. destruct (Hsec s row Hrow) as [Hb Hpar].
    split; [| done]. rewrite lookup_delete_ne; [done |].
    intros Heq. apply Hno. by exists s, row.
  - done.
  - intros s row Hrow. apply lookup_delete_Some in Hrow as [Hs Hrow].
    destruct (Hsec s row Hrow) as [Hb Hpar]. split; [done |].
    intros p Hp. rewrite lookup_delete_ne; [by apply Hpar |].
    intros Heq. apply Hno. left. exists s, row. by rewrite Heq.
  - intros e row Hrow. rewrite lookup_delete_ne; [by eapply Hexp |].
    intros Heq. apply Hno. right. by exists e, row.
  - done.
  - intros e row Hrow. apply lookup_delete_Some in Hrow as [_ Hrow].
    by eapply Hexp.
Qed.

Lemma Model_delete_keeps_refs_closed_witness :
  ∃ r db',
    Model_delete Expenditure 3 sample_db = (r, db') ∧ refs_closed db'.
Proof.
  eexists _, _. split; [reflexivity |].
  exact (Model_delete_keeps_refs_closed sample_db _ Expenditure 3 _
           sample_refs_closed eq_refl).
Defined.

(** X13.  Saving and deleting compose: once [Section.save] has written a
    section, the building it belongs to and the parent it names can no
    longer be deleted. *)
Theorem Section_save_protects_references (self obj : SectionObj) (db db' : DB) :
  Section_save self db = (Ok obj, db') →
  (∃ b, sec_building_id self = Some b
        ∧ Model_delete Building b db' = (Raise ProtectedError, db'))
  ∧ (∀ p, sec_parent_id self = Some p →
          Model_delete Section p db' = (Raise ProtectedError, db')).
Proof.
  intros Hsave.
  destruct (Section_save_cases self db) as [[e He] | (b & Hb & _ & _ & He)];
    rewrite He in Hsave; [discriminate |].
  injection Hsave as _ <-.
  set (db' := set_sections db _).
  assert (sections db' !! saved_key db self
          = Some (mkSectionRow b (sec_parent_id self))) as Hrow
    by apply lookup_insert_eq.
  split.
  - exists b. split; [done |].
    destruct (Model_delete_cases db' Building b) as [[_ ?] | [Hno _]]; [done |].
    destruct Hno. by exists (saved_key db self), (mkSectionRow b (sec_parent_id self)).
  - intros p Hp.
    destruct (Model_delete_cases db' Section p) as [[_ ?] | [Hno _]]; [done |].
    destruct Hno. left.
    by exists (saved_key db self), (mkSectionRow b (sec_parent_id self)).
Qed.

Lemma Section_save_protects_references_witness :
  ∃ obj db',
    Section_save (mkSectionObj None (Some 2) None []) sample_db = (Ok obj, db')
    ∧ Model_delete Building 2 sample_db = (Ok tt, delete_from sample_db Building 2)
    ∧ Model_delete Building 2 db' = (Raise ProtectedError, db').
Proof.
  eexists _, _. split_and!; [by vm_compute | by vm_compute |].
  destruct (proj1 (Section_save_protects_references
                     (mkSectionObj None (Some 2) None []) _ sample_db _ eq_refl))
    as (b & Hb & Hdel).
  injection Hb as <-. exact Hdel.
Defined.

(** ** The selection of [get_parent_sections] *)

Lemma result_map_ok {A B} (f : A → Result B) (g : A → B) (l : list A) :
  (∀ x, f x = Ok (g x)) → result_map f l = Ok (g <$> l).
Proof.
  intros Hf. induction l as [| x l IH]; [done |].
  simpl. rewrite Hf, IH. reflexivity.
Qed.

Lemma get_parent_sections_unfold building_id :
  get_parent_sections building_id
  = (qs ← lift (q ← root_sections_query building_id;
                annotate [ ("budget_parent", budget_parent_expr);
                           ("budget_child", budget_child_expr);
                           ("budget_all", budget_all_expr) ] q);
     list_sections qs).
Proof. reflexivity. Qed.

Lemma dec_eqb_of_Z (a b : Z) :
  dec_eqb (dec_of_Z a) (dec_of_Z b) = bool_decide (a = b).
Proof.
  unfold dec_eqb. rewrite dec_compare_of_Z.
  destruct (Z.compare_spec a b); case_bool_decide; try done; lia.
Qed.

Lemma root_sections_query_resolves building_id :
  root_sections_query building_id
  = Ok (mkQuery Section
          [ mkCond (mkPath [] "building_id") Exact (Val (VInt building_id));
            mkCond (mkPath [] "parent_id") IsNull (Val (VBool true)) ]
          [] ["section"]).
Proof. reflexivity. Qed.

(** One row of the table against the two conditions. *)
Lemma run_row_root_sections building_id db pk q :
  root_sections_query building_id = Ok q →
  run_row db q pk
  = Ok match sections db !! pk with
       | Some row => if is_root_of building_id row then [(pk, [])] else []
       | None => []
       end.
Proof.
  rewrite root_sections_query_resolves. intros [= <-].
  unfold run_row. simpl. unfold joined_rows, aliases. simpl.
  unfold where_holds. simpl. unfold eval_cond. simpl.
  unfold eval_path. simpl. unfold row_get.
  destruct (sections db !! pk) as [row |]; simpl; [| done].
  unfold section_col. simpl. rewrite dec_eqb_of_Z. unfold is_root_of.
  destruct (srow_parent_id row); simpl;
    by destruct (bool_decide (srow_building_id row = building_id)).
Qed.

(** The rows the conditions of lines 51 and 52 select, before the recorded
    prefetch is looked at: one for each stored section of the building that
    has no parent. *)
Lemma root_sections_rows (building_id : Z) (db : DB) :
  ∃ q rows,
    root_sections_query building_id = Ok q
    ∧ execute db q = Ok rows
    ∧ NoDup rows.*1
    ∧ ∀ pk, pk ∈ rows.*1
            ↔ ∃ row, sections db !! pk = Some row
                     ∧ srow_building_id row = building_id
                     ∧ srow_parent_id row = None.
Proof.
  eexists _, _. split; [apply root_sections_query_resolves |].
  set (q := mkQuery _ _ _ _).
  set (g := λ pk : Z,
         match sections db !! pk with
         | Some row =>
             if is_root_of building_id row
             then [(pk, [] : list (string * Value))] else []
         | None => []
         end).
  assert (execute db q = Ok (concat (g <$> table_pks db Section))) as Hexec.
  { unfold execute. change (compile q) with (Ok tt : Result unit). simpl.
    rewrite (result_map_ok _ g); [done |]. intros pk.
    apply run_row_root_sections, root_sections_query_resolves. }
  assert (∀ l, (concat (g <$> l)).*1
               = filter (λ pk, stored_root db building_id pk = true) l)
    as Hkeys.
  { induction l as [| pk l IH]; [done |].
    change (concat (g <$> pk :: l)) with (g pk ++ concat (g <$> l)).
    rewrite fmap_app, IH, filter_cons. unfold g at 1.
    assert (stored_root db building_id pk
            = match sections db !! pk with
              | Some row => is_root_of building_id row
              | None => false
              end) as -> by done.
    destruct (sections db !! pk) as [row |] eqn:Hrow;
      [destruct (is_root_of building_id row) |];
      simpl; try case_decide; done. }
  split; [exact Hexec |]. rewrite Hkeys. split.
  - apply NoDup_filter, NoDup_fst_map_to_list.
  - intros pk. rewrite list_elem_of_filter. unfold stored_root, is_root_of.
    split.
    + intros [Hroot _]. destruct (sections db !! pk) as [row |]; [| done].
      exists row. apply andb_true_iff in Hroot as [H1 H2].
      apply bool_decide_eq_true in H1, H2. done.
    + intros (row & Hrow & Hb & Hp). split.
      * rewrite Hrow. apply andb_true_iff.
        split; by apply bool_decide_eq_true.
      * by eapply section_in_table.
Qed.

(** A lookup that [prefetch_related] recorded on a [Section] queryset and
    that names no relation accessor of [Section]. *)
Lemma prefetch_section_invalid conds :
  prefetch_check (mkQuery Section conds [] ["section"]) "section"
  = Raise AttributeError.
Proof. reflexivity. Qed.

(** X14.  The queryset that [get_parent_sections] builds before annotating
    it (lines 50 to 52), when it is evaluated: the conditions select the
    stored sections of the building that have no parent; if there is none
    the result is the empty list, and if there is one the recorded
    [prefetch_related('section')] raises [AttributeError], because
    [section] is no relation accessor of [Section].  The store is left as it
    was. *)
Theorem root_sections_query_evaluation (building_id : Z) (db : DB) (q : Query) :
  root_sections_query building_id = Ok q →
  ((∃ pk row, sections db !! pk = Some row
              ∧ srow_building_id row = building_id
              ∧ srow_parent_id row = None) →
   list_sections q db = (Raise AttributeError, db))
  ∧ ((¬ ∃ pk row, sections db !! pk = Some row
                  ∧ srow_building_id row = building_id
                  ∧ srow_parent_id row = None) →
     list_sections q db = (Ok [], db)).
Proof.
  intros Hq.
  destruct (root_sections_rows building_id db)
    as (q' & rows & Hq' & Hexec & _ & Hrows).
  assert (q' = q) as -> by congruence. clear Hq'.
  rewrite root_sections_query_resolves in Hq. injection Hq as <-.
  unfold list_sections, evaluate, mbind, M_bind, bind, get_db, lift.
  rewrite Hexec. split.
  - intros (pk & row & Hrow). destruct rows as [| r rows].
    + pose proof (proj2 (Hrows pk) (ex_intro _ row Hrow)) as H.
      by apply elem_of_nil in H.
    + reflexivity.
  - intros Hnone. destruct rows as [| r rows]; [done |].
    destruct Hnone. destruct (proj1 (Hrows r.1)) as (row & Hrow);
      [simpl; apply list_elem_of_here |].
    by exists r.1, row.
Qed.

Lemma root_sections_query_evaluation_witness :
  ∃ q1 q2,
    root_sections_query 1 = Ok q1
    ∧ list_sections q1 sample_db = (Raise AttributeError, sample_db)
    ∧ root_sections_query 2 = Ok q2
    ∧ list_sections q2 sample_db = (Ok [], sample_db).
Proof.
  assert (Hnone : ¬ ∃ pk row, sections sample_db !! pk = Some row
                              ∧ srow_building_id row = 2
                              ∧ srow_parent_id row = None).
  { intros (pk & row & Hrow & Hb & _).
    by destruct (sample_sections pk row Hrow) as [[_ ->] | [_ ->]]. }
  eexists _, _. split_and!.
  - reflexivity.
  - exact (proj1 (root_sections_query_evaluation 1 sample_db _ eq_refl)
             (ex_intro _ 1 (ex_intro _ (mkSectionRow 1 None)
                (conj eq_refl (conj eq_refl eq_refl))))).
  - reflexivity.
  - exact (proj2 (root_sections_query_evaluation 2 sample_db _ eq_refl) Hnone).
Defined.

(** ** The arithmetic of the discount *)

Lemma ndigits_aux_pos fuel n : 1 ≤ ndigits_aux fuel n.
Proof.
  revert n. induction fuel as [| fuel IH]; intros n; simpl; [lia |].
  destruct (n <? 10); [lia |]. specialize (IH (n / 10)). lia.
Qed.

Lemma ndigits_aux_le fuel n k :
  0 ≤ n < 10 ^ k → 1 ≤ k → ndigits_aux fuel n ≤ k.
Proof.
  revert n k. induction fuel as [| fuel IH]; intros n k Hn Hk; simpl; [lia |].
  destruct (Z.ltb_spec n 10) as [Hlt | Hge]; [lia |].
  assert (2 ≤ k) as Hk2.
  { destruct (decide (k = 1)) as [-> | ?]; [| lia]. simpl in Hn. lia. }
  assert (ndigits_aux fuel (n / 10) ≤ k - 1); [| lia].
  apply IH; [| lia]. split; [apply Z.div_pos; lia |].
  apply Z.div_lt_upper_bound; [lia |].
  replace k with (1 + (k - 1)) in Hn by lia.
  rewrite Z.pow_add_r in Hn by lia. lia.
Qed.

Lemma ndigits_bounds n k : 0 ≤ n < 10 ^ k → 1 ≤ k → 1 ≤ ndigits n ≤ k.
Proof.
  intros Hn Hk. unfold ndigits. rewrite Z.abs_eq by lia.
  split; [apply ndigits_aux_pos | by apply ndigits_aux_le].
Qed.

(** A coefficient within the precision is not rounded. *)
Lemma dec_fix_small d : Z.abs (coef d) < 10 ^ 28 → dec_fix d = d.
Proof.
  intros H. unfold dec_fix.
  destruct (ndigits_bounds (Z.abs (coef d)) 28) as [_ Hle]; [lia | lia |].
  unfold prec. destruct (Z.leb_spec (ndigits (Z.abs (coef d)) - 28) 0); [done | lia].
Qed.

(** Stripping the zeros a division by 100 appended stops between the
    exponents -4 and -2 and keeps the value. *)
Lemma strip_to_ideal_scaled (j : nat) (x : Z) :
  0 ≤ x →
  ∃ c' e',
    strip_to_ideal (j + 2) (x * 10 ^ Z.of_nat j) (-4 - Z.of_nat j) (-2) = (c', e')
    ∧ -4 ≤ e' ≤ -2 ∧ c' * 10 ^ (e' + 4) = x ∧ 0 ≤ c'.
Proof.
  intros Hx. induction j as [| j IH].
  - simpl. rewrite Z.mul_1_r.
    destruct (Z.eqb_spec (x mod 10) 0) as [H0 | H0]; simpl.
    + destruct (Z.eqb_spec ((x / 10) mod 10) 0) as [H1 | H1]; simpl.
      * exists (x / 10 / 10), (-2). split_and!; try done; try lia.
        -- change (10 ^ (-2 + 4)) with 100.
           pose proof (Z.div_mod x 10 ltac:(lia)).
           pose proof (Z.div_mod (x / 10) 10 ltac:(lia)). lia.
        -- apply Z.div_pos; [apply Z.div_pos |]; lia.
      * exists (x / 10), (-3). split_and!; try done; try lia.
        -- change (10 ^ (-3 + 4)) with 10.
           pose proof (Z.div_mod x 10 ltac:(lia)). lia.
        -- apply Z.div_pos; lia.
    + exists x, (-4). split_and!; try done; try lia.
  - destruct IH as (c' & e' & IH & He & Hc & Hpos). exists c', e'.
    split; [| done]. rewrite <- IH.
    change (S j + 2)%nat with (S (j + 2)). simpl strip_to_ideal.
    replace (Z.of_nat (S j)) with (Z.of_nat j + 1) by lia.
    rewrite Z.pow_add_r by lia. change (10 ^ 1) with 10.
    replace (x * (10 ^ Z.of_nat j * 10)) with (x * 10 ^ Z.of_nat j * 10) by lia.
    rewrite Z.mod_mul, Z.div_mul by lia.
    destruct (Z.ltb_spec (-4 - (Z.of_nat j + 1)) (-2)); [| lia]. simpl.
    f_equal; lia.
Qed.

Lemma div_eucl_div_mod a b : Z.div_eucl a b = (a / b, a mod b).
Proof. unfold Z.div, Z.modulo. by destruct (Z.div_eucl a b). Qed.

(** A price in [Decimal(20, 2)] divided by 100: exact. *)
Lemma dec_div_money_100 (cents : Z) :
  0 ≤ cents < 10 ^ 20 →
  ∃ c' e',
    dec_div (money cents) (dec_of_Z 100) = mkDecimal c' e'
    ∧ -4 ≤ e' ≤ -2 ∧ c' * 10 ^ (e' + 4) = cents ∧ 0 ≤ c'.
Proof.
  intros Hc. unfold dec_div, money, dec_of_Z. simpl coef. simpl dexp.
  rewrite (Z.abs_eq cents) by lia. change (Z.abs 100) with 100.
  change (ndigits 100) with 3.
  destruct (ndigits_bounds cents 20 Hc ltac:(lia)) as [Hn1 Hn20].
  set (shift := 3 - ndigits cents + prec + 1).
  assert (12 ≤ shift ≤ 31) as Hshift by (unfold shift, prec; lia).
  destruct (Z.leb_spec 0 shift); [| lia].
  rewrite div_eucl_div_mod.
  assert (cents * 10 ^ shift = cents * 10 ^ (shift - 2) * 100) as Hmul.
  { replace shift with ((shift - 2) + 2) at 1 by lia.
    rewrite Z.pow_add_r by lia. change (10 ^ 2) with 100. lia. }
  rewrite Hmul, Z.mod_mul, Z.div_mul by lia. simpl (0 =? 0).  cbv iota.
  replace (strip_to_ideal (Z.to_nat (-2 - 0 - (-2 - 0 - shift)))
             (cents * 10 ^ (shift - 2)) (-2 - 0 - shift) (-2 - 0))
    with (strip_to_ideal (Z.to_nat (shift - 2) + 2)
            (cents * 10 ^ Z.of_nat (Z.to_nat (shift - 2)))
            (-4 - Z.of_nat (Z.to_nat (shift - 2))) (-2))
    by (rewrite Z2Nat.id by lia; f_equal; lia).
  destruct (strip_to_ideal_scaled (Z.to_nat (shift - 2)) cents ltac:(lia))
    as (c' & e' & -> & He & Hval & Hpos).
  exists c', e'. split; [| done].
  assert (Z.sgn cents * Z.sgn 100 * c' = c') as ->.
  { change (Z.sgn 100) with 1.
    destruct (decide (cents = 0)) as [-> | Hne].
    - assert (0 < 10 ^ (e' + 4)) by (apply Z.pow_pos_nonneg; lia). nia.
    - rewrite Z.sgn_pos by lia. lia. }
  apply dec_fix_small. simpl.
  assert (0 < 10 ^ (e' + 4)) by (apply Z.pow_pos_nonneg; lia).
  assert (10 ^ 20 < 10 ^ 28) by (by vm_compute). rewrite Z.abs_eq by lia. nia.
Qed.

(** X15.  On a price of at most 20 digits with two decimals and a whole
    percentage from 0 to 100, the arithmetic of lines 100 and 101
    ([price - price / 100 * discount] on [Decimal]s) is exact: the result is
    the number [price * (100 - discount) / 100], no digit is rounded away. *)
Theorem discounted_exact (cents d : Z) :
  0 ≤ cents < 10 ^ 20 →
  0 ≤ d ≤ 100 →
  ∃ r,
    discounted (VDec (money cents)) (dec_of_Z d) = Ok (VDec r)
    ∧ dec_compare r (mkDecimal (cents * (100 - d)) (-4)) = Eq.
Proof.
  intros Hc Hd. unfold discounted, py_truediv, py_mul, py_sub, py_binop.
  simpl as_decimal.
  destruct (dec_div_money_100 cents Hc) as (c' & e' & -> & He & Hval & Hpos).
  unfold mbind, Result_bind, rbind. cbn [as_decimal].
  assert (10 ^ 20 = 100000000000000000000) as Hp20 by reflexivity.
  assert (10 ^ 28 = 10000000000000000000000000000) as Hp28 by reflexivity.
  assert (c' ≤ cents) as Hle.
  { assert (0 < 10 ^ (e' + 4)) by (apply Z.pow_pos_nonneg; lia). nia. }
  assert (py_dec_mul (mkDecimal c' e') (dec_of_Z d) = mkDecimal (c' * d) (e' + 0))
    as ->.
  { unfold py_dec_mul, dec_mul. simpl. apply dec_fix_small. simpl.
    rewrite Z.abs_eq by nia. nia. }
  cbn [as_decimal]. eexists. split; [reflexivity |].
  unfold py_dec_sub, dec_add, dec_align, money. simpl coef. simpl dexp.
  assert (e' = -4 ∨ e' = -3 ∨ e' = -2) as [-> | [-> | ->]] by lia.
  - change (-4 + 4) with 0 in Hval. change ((-2) `min` (-4 + 0)) with (-4).
    change (10 ^ (-2 - -4)) with 100. change (10 ^ (-4 + 0 - -4)) with 1.
    change (10 ^ 0) with 1 in Hval.
    rewrite dec_fix_small by (simpl; nia).
    unfold dec_compare, dec_align. simpl coef. simpl dexp.
    change ((-4) `min` (-4)) with (-4). change (10 ^ (-4 - -4)) with 1.
    apply Z.compare_eq_iff. nia.
  - change (-3 + 4) with 1 in Hval. change ((-2) `min` (-3 + 0)) with (-3).
    change (10 ^ (-2 - -3)) with 10. change (10 ^ (-3 + 0 - -3)) with 1.
    change (10 ^ 1) with 10 in Hval.
    rewrite dec_fix_small by (simpl; nia).
    unfold dec_compare, dec_align. simpl coef. simpl dexp.
    change ((-3) `min` (-4)) with (-4). change (10 ^ (-3 - -4)) with 10.
    change (10 ^ (-4 - -4)) with 1.
    apply Z.compare_eq_iff. nia.
  - change (-2 + 4) with 2 in Hval. change ((-2) `min` (-2 + 0)) with (-2).
    change (10 ^ (-2 - -2)) with 1. change (10 ^ (-2 + 0 - -2)) with 1.
    change (10 ^ 2) with 100 in Hval.
    rewrite dec_fix_small by (simpl; nia).
    unfold dec_compare, dec_align. simpl coef. simpl dexp.
    change ((-2) `min` (-4)) with (-4). change (10 ^ (-2 - -4)) with 100.
    change (10 ^ (-4 - -4)) with 1.
    apply Z.compare_eq_iff. nia.
Qed.

Lemma discounted_exact_witness :
  ∃ r,
    discounted (VDec (money 20000)) (dec_of_Z 10) = Ok (VDec r)
    ∧ dec_compare r (mkDecimal (20000 * (100 - 10)) (-4)) = Eq.
Proof.
  assert (H1 : 0 ≤ 20000 < 10 ^ 20) by (split; [lia | reflexivity]).
  assert (H2 : 0 ≤ 10 ≤ 100) by lia.
  exact (discounted_exact 20000 10 H1 H2).
Defined.
